(** * tbtn-driver: ACPI notification decoding and bind sequence

    Shallow embedding of [tbtn_driver.c] (the TOUGHPAD A1/A2 button driver).

    The driver is a plugin under the kernel's ACPI framework: everything it
    does is either a read or write of its own two structures, or a call into
    the kernel ([acpi_evaluate_integer], [sparse_keymap_report_event],
    [printk], the [devm_*] allocators, ...).  The kernel is therefore kept
    abstract (class [KernelAPI]); the driver runs in a state monad whose state
    holds the kernel, the memory the driver can see, and the chronological
    record of the kernel calls it made.

    The record keeps the calls that act on the kernel: logging, method
    evaluation, event reports, allocations, keymap setup and registration.
    The driver also calls two read-only kernel helpers, only to fill in log
    lines: [acpi_format_exception] (a status to its name) and
    [acpi_device_hid] (a device to its hardware id).  They are modelled as
    functions and leave no entry in the record; statements about the record
    are statements about the calls of the first kind. *)

From Stdlib Require Import ZArith String List Bool Lia.
From stdpp Require Import base option gmap.

Local Open Scope string_scope.
Local Open Scope Z_scope.

(** ** Machine integers *)

(** [(unsigned int) x] *)
Definition to_u32 (x : Z) : Z := x mod 2 ^ 32.

(** An [unsigned long long] value. *)
Definition is_u64 (x : Z) : Prop := 0 <= x < 2 ^ 64.

(** ** Pointers *)

Definition addr := positive.

(** A C pointer: [None] is [NULL]. *)
Definition ptr := option addr.

Definition is_null (p : ptr) : bool :=
  match p with None => true | Some _ => false end.

(** ** Kernel constants used by the driver (from the kernel headers) *)

(** [linux/input-event-codes.h] *)
Definition KEY_PROG1 : Z := 148.
Definition KEY_PROG2 : Z := 149.
Definition BUS_HOST : Z := 0x19.

(** [asm-generic/errno-base.h] *)
Definition ENOMEM : Z := 12.

(** [acpi/acexcep.h] *)
Definition acpi_status := Z.
Definition AE_OK : acpi_status := 0.
Definition ACPI_FAILURE (status : acpi_status) : bool := negb (status =? AE_OK).

(** [linux/input/sparse-keymap.h] *)
Inductive ke_type := KE_END | KE_KEY | KE_SW | KE_VSW | KE_IGNORE.

Record key_entry := {
  type : ke_type;
  code : Z;
  keycode : Z
}.

Definition ke_type_eqb (a b : ke_type) : bool :=
  match a, b with
  | KE_END, KE_END | KE_KEY, KE_KEY | KE_SW, KE_SW
  | KE_VSW, KE_VSW | KE_IGNORE, KE_IGNORE => true
  | _, _ => false
  end.

(** ** The driver's static tables and structures *)

(** [static const struct key_entry tbtn_keymap[]] *)
Definition tbtn_keymap : list key_entry :=
  [ {| type := KE_KEY; code := 57; keycode := KEY_PROG1 |};
    {| type := KE_KEY; code := 67; keycode := KEY_PROG2 |};
    {| type := KE_END; code := 0; keycode := 0 |} ].

Definition acpi_handle := ptr.

(** [struct tbtn_dev] *)
Record tbtn_dev := {
  handle : acpi_handle;
  input_dev : ptr
}.

(** The fields of the kernel's [struct acpi_device] that the driver touches. *)
Record acpi_device := {
  adev_handle : acpi_handle;
  driver_data : ptr;
  adev_hid : string
}.

(** The fields of the kernel's [struct input_dev] that the driver writes. *)
Record struct_input_dev := {
  name : option string;
  phys : option string;
  id_bustype : Z
}.

(** ** Kernel calls *)

Inductive loglevel := KERN_ERR | KERN_WARNING | KERN_INFO.

Inductive printk_arg :=
| ArgInt (z : Z)
| ArgStr (s : string).

(** One call into the kernel, with the arguments the driver passed and the
    result the kernel gave back.  There is an entry for every kernel
    function of the driver that acts on the kernel; the read-only helpers
    [acpi_format_exception] and [acpi_device_hid] have none. *)
Inductive kcall :=
| Printk (lvl : loglevel) (fmt : string) (args : list printk_arg)
| AcpiEvaluateInteger (h : acpi_handle) (method : string)
    (status : acpi_status) (data : Z)
| SparseKeymapReportEvent (dev : ptr) (scancode value : Z)
    (autorelease : bool) (ok : bool)
| DevmKzalloc (res : ptr)
| DevmInputAllocateDevice (res : ptr)
| SparseKeymapSetup (dev : ptr) (keymap : list key_entry) (err : Z)
| InputRegisterDevice (dev : ptr) (err : Z).

(** The kernel, as far as the driver can tell: a state [K] and the functions
    the driver calls.  Nothing is assumed about how they answer.  The
    arguments the driver always passes as [NULL] (the argument list of
    [acpi_evaluate_integer], the setup callback of [sparse_keymap_setup])
    and the [&device->dev] of the [devm_*] allocators are left out. *)
Class KernelAPI (K : Type) := {
  acpi_evaluate_integer :
    acpi_handle -> string -> K -> (acpi_status * Z) * K;
  acpi_format_exception : acpi_status -> string;
  sparse_keymap_report_event : ptr -> Z -> Z -> bool -> K -> bool * K;
  devm_kzalloc : K -> ptr * K;
  devm_input_allocate_device : K -> ptr * K;
  sparse_keymap_setup : ptr -> list key_entry -> K -> Z * K;
  input_register_device : ptr -> K -> Z * K
}.

(** ** Filters on the record of calls *)

(** What was handed to the event emitter: (device, code, value, autorelease). *)
Definition emitted (c : kcall) : option (ptr * Z * Z * bool) :=
  match c with
  | SparseKeymapReportEvent dev sc v ar _ => Some (dev, sc, v, ar)
  | _ => None
  end.

Definition emissions (l : list kcall) : list (ptr * Z * Z * bool) :=
  omap emitted l.

Definition evaluated (c : kcall) : option (acpi_handle * string * acpi_status * Z) :=
  match c with
  | AcpiEvaluateInteger h m st v => Some (h, m, st, v)
  | _ => None
  end.

Definition evaluations (l : list kcall) :
  list (acpi_handle * string * acpi_status * Z) :=
  omap evaluated l.

Definition warned (c : kcall) : option (string * list printk_arg) :=
  match c with
  | Printk KERN_WARNING fmt args => Some (fmt, args)
  | _ => None
  end.

Definition warnings (l : list kcall) : list (string * list printk_arg) :=
  omap warned l.

Definition is_printk (c : kcall) : bool :=
  match c with Printk _ _ _ => true | _ => false end.

(** The recorded calls other than logging. *)
Definition kernel_work (l : list kcall) : list kcall :=
  List.filter (fun c => negb (is_printk c)) l.

(** Devices the input core accepted. *)
Definition registered (c : kcall) : option ptr :=
  match c with
  | InputRegisterDevice dev 0 => Some dev
  | _ => None
  end.

Definition registrations (l : list kcall) : list ptr := omap registered l.

(** ** The keymap as the kernel's sparse-keymap helper reads it

    The helper scans the table from the front and stops at the first
    [KE_END] entry. *)

(** The entries before the [KE_END] sentinel. *)
Fixpoint keymap_entries (km : list key_entry) : list key_entry :=
  match km with
  | [] => []
  | ke :: rest =>
      if ke_type_eqb (type ke) KE_END then [] else ke :: keymap_entries rest
  end.

(** First entry with the given raw code, scanning up to the sentinel. *)
Fixpoint keymap_find (km : list key_entry) (c : Z) : option key_entry :=
  match km with
  | [] => None
  | ke :: rest =>
      if ke_type_eqb (type ke) KE_END then None
      else if code ke =? c then Some ke
      else keymap_find rest c
  end.

(** ** The notification decoder (lines 68-98 of [tbtn_notify_handler]) *)

Definition key_value_of (hinf_result : Z) : Z :=
  to_u32 (Z.land hinf_result 0x7F).

Definition key_event_type_of (hinf_result : Z) : Z :=
  to_u32 (Z.land hinf_result 0x80).

(** The inner [switch (key_value)]: the pair
    [(report_key_value, event_type_to_report)] it leaves behind, or [None]
    for the [default] branch. *)
Definition decode_key_value (key_value : Z) : option (Z * Z) :=
  let report_key_value := 0 in
  let event_type_to_report := -1 in
  if key_value =? 57 then
    let report_key_value := 57 in
    let event_type_to_report := 1 in
    Some (report_key_value, event_type_to_report)
  else if key_value =? 56 then
    let report_key_value := 57 in
    let event_type_to_report := 0 in
    Some (report_key_value, event_type_to_report)
  else if key_value =? 67 then
    let report_key_value := 67 in
    let event_type_to_report := 1 in
    Some (report_key_value, event_type_to_report)
  else if key_value =? 66 then
    let report_key_value := 67 in
    let event_type_to_report := 0 in
    Some (report_key_value, event_type_to_report)
  else None.

(** The decoder on a raw status value.  [key_event_type] is computed, as in
    the source, and never read. *)
Definition decode (hinf_result : Z) : option (Z * Z) :=
  let key_value := key_value_of hinf_result in
  let key_event_type := key_event_type_of hinf_result in
  decode_key_value key_value.

(** The decoded event in the spec's vocabulary: the symbolic key the keymap
    gives for the reported code, and the direction. *)
Inductive direction := released | pressed.

Definition direction_of (v : Z) : direction :=
  if v =? 0 then released else pressed.

Definition decoded_event (hinf_result : Z) : option (Z * direction) :=
  match decode hinf_result with
  | None => None
  | Some (report_key_value, event_type_to_report) =>
      match keymap_find tbtn_keymap report_key_value with
      | None => None
      | Some ke => Some (keycode ke, direction_of event_type_to_report)
      end
  end.

Section Driver.

Context {K : Type} `{KernelAPI K}.

(** ** Machine state *)

Record state := {
  kern : K;
  acpi_devices : gmap addr acpi_device;
  tbtn_devs : gmap addr tbtn_dev;
  input_devs : gmap addr struct_input_dev;
  trace : list kcall
}.

(** A driver computation either finishes with a value and a state, or
    faults on a wild pointer. *)
Inductive outcome (A : Type) :=
| Done (a : A) (s : state)
| Fault.
Arguments Done {A} a s.
Arguments Fault {A}.

Definition M (A : Type) : Type := state -> outcome A.

Definition ret {A} (a : A) : M A := fun s => Done a s.

Definition bind {A B} (m : M A) (k : A -> M B) : M B :=
  fun s => match m s with
           | Done a s' => k a s'
           | Fault => Fault
           end.

Notation "'let*' x ':=' m 'in' k" := (bind m (fun x => k))
  (at level 10, x pattern, m at level 200, k at level 200).
Notation "m ';;' k" := (bind m (fun _ => k))
  (at level 100, k at level 200, right associativity).

(** Entering a kernel function: the kernel moves on and the call is
    recorded. *)
Definition called (c : kcall) (k : K) (s : state) : state :=
  {| kern := k;
     acpi_devices := acpi_devices s;
     tbtn_devs := tbtn_devs s;
     input_devs := input_devs s;
     trace := trace s ++ [c] |}.

Definition printk (lvl : loglevel) (fmt : string) (args : list printk_arg)
  : M unit :=
  fun s => Done tt (called (Printk lvl fmt args) (kern s) s).

Definition pr_err := printk KERN_ERR.
Definition pr_warn := printk KERN_WARNING.
Definition pr_info := printk KERN_INFO.

(** *** Memory *)

Definition deref_acpi (device : ptr) : M acpi_device :=
  fun s => match device ≫= (acpi_devices s !!.) with
           | Some d => Done d s
           | None => Fault
           end.

Definition deref_tbtn (tbtn : ptr) : M tbtn_dev :=
  fun s => match tbtn ≫= (tbtn_devs s !!.) with
           | Some t => Done t s
           | None => Fault
           end.

Definition deref_input (p : ptr) : M struct_input_dev :=
  fun s => match p ≫= (input_devs s !!.) with
           | Some i => Done i s
           | None => Fault
           end.

Definition store_acpi (device : ptr) (d : acpi_device) : M unit :=
  fun s => match device with
           | Some a =>
               Done tt {| kern := kern s;
                          acpi_devices := <[a := d]> (acpi_devices s);
                          tbtn_devs := tbtn_devs s;
                          input_devs := input_devs s;
                          trace := trace s |}
           | None => Fault
           end.

Definition store_tbtn (tbtn : ptr) (t : tbtn_dev) : M unit :=
  fun s => match tbtn with
           | Some a =>
               Done tt {| kern := kern s;
                          acpi_devices := acpi_devices s;
                          tbtn_devs := <[a := t]> (tbtn_devs s);
                          input_devs := input_devs s;
                          trace := trace s |}
           | None => Fault
           end.

Definition store_input (p : ptr) (i : struct_input_dev) : M unit :=
  fun s => match p with
           | Some a =>
               Done tt {| kern := kern s;
                          acpi_devices := acpi_devices s;
                          tbtn_devs := tbtn_devs s;
                          input_devs := <[a := i]> (input_devs s);
                          trace := trace s |}
           | None => Fault
           end.

(** [acpi_driver_data(device)] *)
Definition acpi_driver_data (device : ptr) : M ptr :=
  let* d := deref_acpi device in ret (driver_data d).

(** [acpi_device_hid(device)]: the kernel's accessor for the hardware id
    of the device; a read of the device, not recorded. *)
Definition acpi_device_hid (device : ptr) : M string :=
  let* d := deref_acpi device in ret (adev_hid d).

(** *** Kernel calls *)

Definition call_acpi_evaluate_integer (h : acpi_handle) (method : string)
  : M (acpi_status * Z) :=
  fun s =>
    let '((status, data), k) := acpi_evaluate_integer h method (kern s) in
    Done (status, data) (called (AcpiEvaluateInteger h method status data) k s).

Definition call_sparse_keymap_report_event
    (dev : ptr) (scancode value : Z) (autorelease : bool) : M bool :=
  fun s =>
    let '(ok, k) :=
      sparse_keymap_report_event dev scancode value autorelease (kern s) in
    Done ok (called (SparseKeymapReportEvent dev scancode value autorelease ok) k s).

(** [devm_kzalloc(&device->dev, sizeof(struct tbtn_dev), GFP_KERNEL)]: on
    success the driver sees a zeroed [struct tbtn_dev] at the address. *)
Definition call_devm_kzalloc : M ptr :=
  fun s =>
    let '(res, k) := devm_kzalloc (kern s) in
    let s' := called (DevmKzalloc res) k s in
    match res with
    | None => Done None s'
    | Some a =>
        Done res {| kern := kern s';
                    acpi_devices := acpi_devices s';
                    tbtn_devs :=
                      <[a := {| handle := None; input_dev := None |}]>
                        (tbtn_devs s');
                    input_devs := input_devs s';
                    trace := trace s' |}
    end.

(** [devm_input_allocate_device(&device->dev)] *)
Definition call_devm_input_allocate_device : M ptr :=
  fun s =>
    let '(res, k) := devm_input_allocate_device (kern s) in
    let s' := called (DevmInputAllocateDevice res) k s in
    match res with
    | None => Done None s'
    | Some a =>
        Done res {| kern := kern s';
                    acpi_devices := acpi_devices s';
                    tbtn_devs := tbtn_devs s';
                    input_devs :=
                      <[a := {| name := None; phys := None; id_bustype := 0 |}]>
                        (input_devs s');
                    trace := trace s' |}
    end.

Definition call_sparse_keymap_setup (dev : ptr) (keymap : list key_entry)
  : M Z :=
  fun s =>
    let '(err, k) := sparse_keymap_setup dev keymap (kern s) in
    Done err (called (SparseKeymapSetup dev keymap err) k s).

Definition call_input_register_device (dev : ptr) : M Z :=
  fun s =>
    let '(err, k) := input_register_device dev (kern s) in
    Done err (called (InputRegisterDevice dev err) k s).

(** The line feed that ends the format strings written with a C newline
    escape; the ones written with a doubled backslash print a backslash
    and an n instead. *)
Definition LF : string := String (Ascii.ascii_of_nat 10) EmptyString.

(** ** [tbtn_notify_handler] *)

Definition tbtn_notify_handler (device : ptr) (event : Z) : M unit :=
  let* tbtn := acpi_driver_data device in
  let* uninitialized :=
    (if is_null tbtn then ret true
     else let* t := deref_tbtn tbtn in ret (is_null (input_dev t))) in
  if uninitialized : bool then
    pr_warn "tbtn: Received notify for uninitialized device\n" []
  else if event =? 0x80 then
    pr_info "tbtn: Notify 0x80 received\n" [];;
    let* t := deref_tbtn tbtn in
    let* (status, hinf_result) :=
      call_acpi_evaluate_integer (handle t) "HINF" in
    if ACPI_FAILURE status then
      pr_err "tbtn: Failed to evaluate HINF: %s\n"
        [ArgStr (acpi_format_exception status)]
    else
      pr_info "tbtn: HINF returned 0x%llx\n" [ArgInt hinf_result];;
      let key_value := key_value_of hinf_result in
      let key_event_type := key_event_type_of hinf_result in
      match decode_key_value key_value with
      | None =>
          pr_warn ("tbtn: Received unhandled HINF key_value: 0x%x" ++ LF)
            [ArgInt key_value]
      | Some (report_key_value, event_type_to_report) =>
          if negb (event_type_to_report =? -1) then
            let* t := deref_tbtn tbtn in
            let* ok :=
              call_sparse_keymap_report_event (input_dev t)
                report_key_value (to_u32 event_type_to_report) true in
            if negb ok then
              pr_warn
                ("tbtn: Failed to report HINF event via sparse_keymap: HINF_raw=0x%llx, report_key=%u, report_type=%d"
                   ++ LF)
                [ArgInt hinf_result; ArgInt report_key_value;
                 ArgInt event_type_to_report]
            else
              pr_info
                ("tbtn: Reported key event: report_key=%u, report_type=%d"
                   ++ LF)
                [ArgInt report_key_value; ArgInt event_type_to_report]
          else ret tt
      end
  else
    pr_info "tbtn: Received unknown event 0x%x\n" [ArgInt event].

(** ** [tbtn_add] *)

Definition tbtn_add (device : ptr) : M Z :=
  let* hid := acpi_device_hid device in
  pr_info "tbtn: Device add called for %s\n" [ArgStr hid];;
  let* tbtn := call_devm_kzalloc in
  if is_null tbtn then ret (- ENOMEM)
  else
    let* d := deref_acpi device in
    let* t := deref_tbtn tbtn in
    store_tbtn tbtn {| handle := adev_handle d; input_dev := input_dev t |};;
    let* d := deref_acpi device in
    store_acpi device
      {| adev_handle := adev_handle d;
         driver_data := tbtn;
         adev_hid := adev_hid d |};;
    let* input_dev_ := call_devm_input_allocate_device in
    if is_null input_dev_ then
      pr_err "tbtn: Failed to allocate input device\n" [];;
      ret (- ENOMEM)
    else
      let* i := deref_input input_dev_ in
      store_input input_dev_
        {| name := Some "TBTN A1/A2 Buttons";
           phys := phys i; id_bustype := id_bustype i |};;
      let* i := deref_input input_dev_ in
      store_input input_dev_
        {| name := name i;
           phys := Some "tbtn/input0"; id_bustype := id_bustype i |};;
      let* i := deref_input input_dev_ in
      store_input input_dev_
        {| name := name i; phys := phys i; id_bustype := BUS_HOST |};;
      let* error := call_sparse_keymap_setup input_dev_ tbtn_keymap in
      if negb (error =? 0) then
        pr_err "tbtn: Failed to setup keymap: %d\n" [ArgInt error];;
        ret error
      else
        let* t := deref_tbtn tbtn in
        store_tbtn tbtn {| handle := handle t; input_dev := input_dev_ |};;
        let* t := deref_tbtn tbtn in
        let* error := call_input_register_device (input_dev t) in
        if negb (error =? 0) then
          pr_err "tbtn: Failed to register input device: %d\n"
            [ArgInt error];;
          ret error
        else
          let* hid := acpi_device_hid device in
          pr_info "tbtn: Input device registered for %s\n" [ArgStr hid];;
          ret 0.

(** ** Reading a state *)

(** The device context [device->driver_data] points to, if there is one. *)
Definition context_of (s : state) (device : ptr) : option tbtn_dev :=
  match device ≫= (acpi_devices s !!.) with
  | None => None
  | Some d => driver_data d ≫= (tbtn_devs s !!.)
  end.

(** [device] is a live ACPI device whose context pointer is [NULL] or
    points to a live [struct tbtn_dev]: the handler can run without
    touching a wild pointer. *)
Definition well_formed (s : state) (device : ptr) : bool :=
  match device ≫= (acpi_devices s !!.) with
  | None => false
  | Some d =>
      match driver_data d with
      | None => true
      | Some a => bool_decide (is_Some (tbtn_devs s !! a))
      end
  end.

(** The guard at the top of the handler: context pointer or its input
    device pointer is [NULL]. *)
Definition uninitialized (s : state) (device : ptr) : bool :=
  match device ≫= (acpi_devices s !!.) with
  | None => false
  | Some d =>
      match driver_data d with
      | None => true
      | Some a =>
          match tbtn_devs s !! a with
          | None => false
          | Some t => is_null (input_dev t)
          end
      end
  end.

(** The memory the driver owns or writes. *)
Definition driver_state (s : state) :=
  (acpi_devices s, tbtn_devs s, input_devs s).

(** [s] after the kernel calls [new], which left the kernel in [k]; the
    driver's memory is as in [s]. *)
Definition advanced (s : state) (k : K) (new : list kcall) : state :=
  {| kern := k;
     acpi_devices := acpi_devices s;
     tbtn_devs := tbtn_devs s;
     input_devs := input_devs s;
     trace := trace s ++ new |}.

(** The state as a later callback on a bound device finds it: the
    driver's memory is what [s] left, the kernel has moved on to [k], and
    the record starts afresh.  (After a bind that failed the kernel
    releases the [devm_*] allocations and calls the driver no more; [later]
    does not model that release.) *)
Definition later (s : state) (k : K) : state :=
  {| kern := k;
     acpi_devices := acpi_devices s;
     tbtn_devs := tbtn_devs s;
     input_devs := input_devs s;
     trace := [] |}.

(** ** The runs of the handler, path by path

    [handler_run s device event k new]: from [s], the handler makes the
    kernel calls [new] and leaves the kernel in [k]. *)
Inductive handler_run (s : state) (device : ptr) (event : Z)
  : K -> list kcall -> Prop :=
| run_uninitialized :
    uninitialized s device = true ->
    handler_run s device event (kern s)
      [Printk KERN_WARNING
         "tbtn: Received notify for uninitialized device\n" []]
| run_unknown_event t :
    context_of s device = Some t ->
    is_null (input_dev t) = false ->
    event <> 0x80 ->
    handler_run s device event (kern s)
      [Printk KERN_INFO "tbtn: Received unknown event 0x%x\n"
         [ArgInt event]]
| run_hinf_failed t status data k :
    context_of s device = Some t ->
    is_null (input_dev t) = false ->
    event = 0x80 ->
    acpi_evaluate_integer (handle t) "HINF" (kern s) = ((status, data), k) ->
    status <> AE_OK ->
    handler_run s device event k
      [Printk KERN_INFO "tbtn: Notify 0x80 received\n" [];
       AcpiEvaluateInteger (handle t) "HINF" status data;
       Printk KERN_ERR "tbtn: Failed to evaluate HINF: %s\n"
         [ArgStr (acpi_format_exception status)]]
| run_unhandled t hinf_result k :
    context_of s device = Some t ->
    is_null (input_dev t) = false ->
    event = 0x80 ->
    acpi_evaluate_integer (handle t) "HINF" (kern s)
      = ((AE_OK, hinf_result), k) ->
    decode hinf_result = None ->
    handler_run s device event k
      [Printk KERN_INFO "tbtn: Notify 0x80 received\n" [];
       AcpiEvaluateInteger (handle t) "HINF" AE_OK hinf_result;
       Printk KERN_INFO "tbtn: HINF returned 0x%llx\n" [ArgInt hinf_result];
       Printk KERN_WARNING
         ("tbtn: Received unhandled HINF key_value: 0x%x" ++ LF)
         [ArgInt (key_value_of hinf_result)]]
| run_reported t hinf_result k1 report_key_value event_type_to_report ok k2 :
    context_of s device = Some t ->
    is_null (input_dev t) = false ->
    event = 0x80 ->
    acpi_evaluate_integer (handle t) "HINF" (kern s)
      = ((AE_OK, hinf_result), k1) ->
    decode hinf_result = Some (report_key_value, event_type_to_report) ->
    sparse_keymap_report_event (input_dev t) report_key_value
      (to_u32 event_type_to_report) true k1 = (ok, k2) ->
    handler_run s device event k2
      [Printk KERN_INFO "tbtn: Notify 0x80 received\n" [];
       AcpiEvaluateInteger (handle t) "HINF" AE_OK hinf_result;
       Printk KERN_INFO "tbtn: HINF returned 0x%llx\n" [ArgInt hinf_result];
       SparseKeymapReportEvent (input_dev t) report_key_value
         (to_u32 event_type_to_report) true ok;
       if ok then
         Printk KERN_INFO
           ("tbtn: Reported key event: report_key=%u, report_type=%d" ++ LF)
           [ArgInt report_key_value; ArgInt event_type_to_report]
       else
         Printk KERN_WARNING
           ("tbtn: Failed to report HINF event via sparse_keymap: HINF_raw=0x%llx, report_key=%u, report_type=%d"
              ++ LF)
           [ArgInt hinf_result; ArgInt report_key_value;
            ArgInt event_type_to_report]].

(** ** The runs of the bind, path by path

    [add_run s device r new]: from [s], [tbtn_add] returns [r] after the
    kernel calls [new]. *)
Inductive add_run (s : state) (device : ptr) : Z -> list kcall -> Prop :=
| add_no_context d k1 :
    device ≫= (acpi_devices s !!.) = Some d ->
    devm_kzalloc (kern s) = (None, k1) ->
    add_run s device (- ENOMEM)
      [Printk KERN_INFO "tbtn: Device add called for %s\n"
         [ArgStr (adev_hid d)];
       DevmKzalloc None]
| add_no_input_device d a k1 k2 :
    device ≫= (acpi_devices s !!.) = Some d ->
    devm_kzalloc (kern s) = (Some a, k1) ->
    devm_input_allocate_device k1 = (None, k2) ->
    add_run s device (- ENOMEM)
      [Printk KERN_INFO "tbtn: Device add called for %s\n"
         [ArgStr (adev_hid d)];
       DevmKzalloc (Some a);
       DevmInputAllocateDevice None;
       Printk KERN_ERR "tbtn: Failed to allocate input device\n" []]
| add_setup_failed d a k1 i k2 error k3 :
    device ≫= (acpi_devices s !!.) = Some d ->
    devm_kzalloc (kern s) = (Some a, k1) ->
    devm_input_allocate_device k1 = (Some i, k2) ->
    sparse_keymap_setup (Some i) tbtn_keymap k2 = (error, k3) ->
    error <> 0 ->
    add_run s device error
      [Printk KERN_INFO "tbtn: Device add called for %s\n"
         [ArgStr (adev_hid d)];
       DevmKzalloc (Some a);
       DevmInputAllocateDevice (Some i);
       SparseKeymapSetup (Some i) tbtn_keymap error;
       Printk KERN_ERR "tbtn: Failed to setup keymap: %d\n" [ArgInt error]]
| add_register_failed d a k1 i k2 k3 error k4 :
    device ≫= (acpi_devices s !!.) = Some d ->
    devm_kzalloc (kern s) = (Some a, k1) ->
    devm_input_allocate_device k1 = (Some i, k2) ->
    sparse_keymap_setup (Some i) tbtn_keymap k2 = (0, k3) ->
    input_register_device (Some i) k3 = (error, k4) ->
    error <> 0 ->
    add_run s device error
      [Printk KERN_INFO "tbtn: Device add called for %s\n"
         [ArgStr (adev_hid d)];
       DevmKzalloc (Some a);
       DevmInputAllocateDevice (Some i);
       SparseKeymapSetup (Some i) tbtn_keymap 0;
       InputRegisterDevice (Some i) error;
       Printk KERN_ERR "tbtn: Failed to register input device: %d\n"
         [ArgInt error]]
| add_bound d a k1 i k2 k3 k4 :
    device ≫= (acpi_devices s !!.) = Some d ->
    devm_kzalloc (kern s) = (Some a, k1) ->
    devm_input_allocate_device k1 = (Some i, k2) ->
    sparse_keymap_setup (Some i) tbtn_keymap k2 = (0, k3) ->
    input_register_device (Some i) k3 = (0, k4) ->
    add_run s device 0
      [Printk KERN_INFO "tbtn: Device add called for %s\n"
         [ArgStr (adev_hid d)];
       DevmKzalloc (Some a);
       DevmInputAllocateDevice (Some i);
       SparseKeymapSetup (Some i) tbtn_keymap 0;
       InputRegisterDevice (Some i) 0;
       Printk KERN_INFO "tbtn: Input device registered for %s\n"
         [ArgStr (adev_hid d)]].

(** [tbtn->input_dev] as the handler reads it through [device]. *)
Definition input_of (s : state) (device : ptr) : ptr :=
  match context_of s device with
  | Some t => input_dev t
  | None => None
  end.

(** The handler, called on [device] with [event] in state [s], returns
    after the kernel calls [new], leaving the kernel in [k] and the
    driver's memory as it was. *)
Definition handler_returns (s : state) (device : ptr) (event : Z)
    (k : K) (new : list kcall) : Prop :=
  tbtn_notify_handler device event s = Done tt (advanced s k new).

(** The kernel's error convention for the two calls whose result
    [tbtn_add] hands back unchanged: 0, or a negative errno. *)
Definition errno_convention : Prop :=
  (forall dev keymap k, fst (sparse_keymap_setup dev keymap k) <= 0) /\
  (forall dev k, fst (input_register_device dev k) <= 0).

End Driver.

Arguments Done {K A} a s.
Arguments Fault {K A}.
Arguments state K : clear implicits.

(** The handler's log line for an event code it does not handle. *)
Definition unknown_event_logged (event : Z) (new : list kcall) : Prop :=
  In (Printk KERN_INFO "tbtn: Received unknown event 0x%x\n" [ArgInt event])
    new.

(** The raw codes the decoder recognises. *)
Definition recognised (low7 : Z) : Prop :=
  low7 = 56 \/ low7 = 57 \/ low7 = 66 \/ low7 = 67.

(** A step of the bind that did not succeed. *)
Definition failed (c : kcall) : bool :=
  match c with
  | DevmKzalloc res => is_null res
  | DevmInputAllocateDevice res => is_null res
  | SparseKeymapSetup _ _ err => negb (err =? 0)
  | InputRegisterDevice _ err => negb (err =? 0)
  | _ => false
  end.

(** The code the bind hands back when that step fails: the kernel's own
    for keymap setup and registration, [-ENOMEM] for the allocations. *)
Definition error_code (c : kcall) : Z :=
  match c with
  | SparseKeymapSetup _ _ err | InputRegisterDevice _ err => err
  | _ => - ENOMEM
  end.

(** ** A small kernel to run the driver on

    Firmware replies and allocation results are scripted; the sparse-keymap
    helper answers from the keymap that was set up. *)
Module Sim.

Record kernel := {
  hinf_replies : list (acpi_status * Z);
  allocations : list ptr;
  installed : list key_entry;
  setup_result : Z;
  register_result : Z
}.

Definition AE_ERROR : acpi_status := 1.

Definition evaluate (h : acpi_handle) (method : string) (k : kernel)
  : (acpi_status * Z) * kernel :=
  match hinf_replies k with
  | [] => ((AE_ERROR, 0), k)
  | r :: rest =>
      (r, {| hinf_replies := rest;
             allocations := allocations k;
             installed := installed k;
             setup_result := setup_result k;
             register_result := register_result k |})
  end.

Definition allocate (k : kernel) : ptr * kernel :=
  match allocations k with
  | [] => (None, k)
  | p :: rest =>
      (p, {| hinf_replies := hinf_replies k;
             allocations := rest;
             installed := installed k;
             setup_result := setup_result k;
             register_result := register_result k |})
  end.

Definition report (dev : ptr) (scancode value : Z) (autorelease : bool)
    (k : kernel) : bool * kernel :=
  (bool_decide (is_Some (keymap_find (installed k) scancode)), k).

(** Results of setup and registration follow the kernel's convention:
    0 or a negative errno. *)
Definition errno (result : Z) : Z := Z.min result 0.

Definition setup (dev : ptr) (keymap : list key_entry) (k : kernel)
  : Z * kernel :=
  (errno (setup_result k),
   if errno (setup_result k) =? 0 then
     {| hinf_replies := hinf_replies k;
        allocations := allocations k;
        installed := keymap;
        setup_result := setup_result k;
        register_result := register_result k |}
   else k).

#[global] Instance api : KernelAPI kernel := {|
  acpi_evaluate_integer := evaluate;
  acpi_format_exception :=
    fun status => if status =? AE_OK then "AE_OK" else "AE_ERROR";
  sparse_keymap_report_event := report;
  devm_kzalloc := allocate;
  devm_input_allocate_device := allocate;
  sparse_keymap_setup := setup;
  input_register_device := fun dev k => (errno (register_result k), k)
|}.

(** A kernel with the given firmware replies to come and the given keymap
    on the input device. *)
Definition booted (replies : list (acpi_status * Z))
    (keymap : list key_entry) : kernel :=
  {| hinf_replies := replies;
     allocations := [];
     installed := keymap;
     setup_result := 0;
     register_result := 0 |}.

(** A kernel about to bind: the next allocations and the results of
    keymap setup and registration. *)
Definition probing (allocs : list ptr) (setup_err register_err : Z)
  : kernel :=
  {| hinf_replies := [];
     allocations := allocs;
     installed := [];
     setup_result := setup_err;
     register_result := register_err |}.

(** One ACPI device at address 1 (handle 7); its context, when there is
    one, at address 2; the input device, when there is one, at address 3. *)
Definition the_device : ptr := Some 1%positive.

Definition machine (k : kernel) (context : option tbtn_dev) : state kernel :=
  {| kern := k;
     acpi_devices :=
       {[ 1%positive :=
            {| adev_handle := Some 7%positive;
               driver_data :=
                 match context with
                 | Some _ => Some 2%positive
                 | None => None
                 end;
               adev_hid := "MAT002A" |} ]};
     tbtn_devs :=
       match context with
       | Some t => {[ 2%positive := t ]}
       | None => ∅
       end;
     input_devs := ∅;
     trace := [] |}.

(** The context a successful bind leaves. *)
Definition bound_context : tbtn_dev :=
  {| handle := Some 7%positive; input_dev := Some 3%positive |}.

(** A bound device whose firmware will answer [replies]. *)
Definition bound (replies : list (acpi_status * Z)) : state kernel :=
  machine (booted replies tbtn_keymap) (Some bound_context).

End Sim.

(** * The rest of the driver: unbind, module load and unload *)


Section Lifecycle.

Context {K : Type} `{KernelAPI K}.

Local Notation "'let*' x ':=' m 'in' k" := (bind m (fun x => k))
  (at level 10, x pattern, m at level 200, k at level 200).
Local Notation "m ';;' k" := (bind m (fun _ => k))
  (at level 100, k at level 200, right associativity).

(** ** [tbtn_remove] *)

Definition tbtn_remove (device : ptr) : @M K unit :=
  let* hid := acpi_device_hid device in
  pr_info "tbtn: Device remove called for %s\n" [ArgStr hid].

(** The fields of [struct acpi_driver] that the driver fills in. *)
Record acpi_driver := {
  drv_name : string;
  drv_class : string;
  drv_ids : list (string * Z);
  ops_add : ptr -> @M K Z;
  ops_remove : ptr -> @M K unit;
  ops_notify : ptr -> Z -> @M K unit
}.


(** The ACPI bus, called at module load and unload.  These two calls are
    made outside any device callback: they move the kernel on and are not
    part of the per-device record of calls. *)
Class AcpiBusAPI := {
  acpi_bus_register_driver : acpi_driver -> K -> Z * K;
  acpi_bus_unregister_driver : acpi_driver -> K -> K
}.

Context `{AcpiBusAPI}.



(** ** [tbtn_init] *)


(** ** [tbtn_exit] *)


(** ** Notifications one after the other

    The ACPI core calls the handler once per notification; between two
    calls the kernel is where the previous call left it. *)
Fixpoint notify_each (device : ptr) (events : list Z) : @M K unit :=
  match events with
  | [] => ret tt
  | event :: rest =>
      tbtn_notify_handler device event;;
      notify_each device rest
  end.

End Lifecycle.

Arguments acpi_driver K : clear implicits.
Arguments AcpiBusAPI K : clear implicits.

(** ** Vocabulary for the statements below *)

(** [d] with its [driver_data] set to [tbtn]. *)
Definition with_driver_data (d : acpi_device) (tbtn : ptr) : acpi_device :=
  {| adev_handle := adev_handle d;
     driver_data := tbtn;
     adev_hid := adev_hid d |}.

(** The input device as [tbtn_add] has filled it in. *)
Definition tbtn_input_dev : struct_input_dev :=
  {| name := Some "TBTN A1/A2 Buttons";
     phys := Some "tbtn/input0";
     id_bustype := BUS_HOST |}.

(** The kinds of recorded call a notification makes. *)
Definition notify_call (c : kcall) : bool :=
  match c with
  | Printk _ _ _ | AcpiEvaluateInteger _ _ _ _
  | SparseKeymapReportEvent _ _ _ _ _ => true
  | _ => false
  end.

(** The calls by which a bind allocates, sets up the keymap and
    registers. *)
Definition is_bind_step (c : kcall) : bool :=
  match c with
  | DevmKzalloc _ | DevmInputAllocateDevice _
  | SparseKeymapSetup _ _ _ | InputRegisterDevice _ _ => true
  | _ => false
  end.

Definition bind_steps (l : list kcall) : list kcall :=
  List.filter is_bind_step l.

(** The number of notifications with event code 0x80. *)
Definition button_events (events : list Z) : nat :=
  length (List.filter (fun event => event =? 0x80) events).

(** The bus of the simulated kernel: registration answers with the
    scripted registration result. *)
#[global] Instance sim_bus : AcpiBusAPI Sim.kernel := {|
  acpi_bus_register_driver :=
    fun driver k => (Sim.errno (Sim.register_result k), k);
  acpi_bus_unregister_driver := fun driver k => k
|}.

(** * Proofs *)

(** ** The decoder *)

Lemma low7_range (h : Z) : 0 <= Z.land h 0x7F < 128.
Proof.
  change 0x7F with (Z.ones 7). rewrite Z.land_ones by lia.
  apply Z.mod_pos_bound. lia.
Qed.

Lemma key_value_low7 (h : Z) : key_value_of h = Z.land h 0x7F.
Proof.
  unfold key_value_of, to_u32. pose proof (low7_range h).
  apply Z.mod_small. lia.
Qed.

(** What the [switch] leaves behind, read off case by case. *)
Lemma decode_key_value_cases (v : Z) :
  (v = 57 /\ decode_key_value v = Some (57, 1)) \/
  (v = 56 /\ decode_key_value v = Some (57, 0)) \/
  (v = 67 /\ decode_key_value v = Some (67, 1)) \/
  (v = 66 /\ decode_key_value v = Some (67, 0)) \/
  (v <> 57 /\ v <> 56 /\ v <> 67 /\ v <> 66 /\ decode_key_value v = None).
Proof.
  unfold decode_key_value.
  destruct (Z.eqb_spec v 57) as [-> | ?]; [auto |].
  destruct (Z.eqb_spec v 56) as [-> | ?]; [auto |].
  destruct (Z.eqb_spec v 67) as [-> | ?]; [auto |].
  destruct (Z.eqb_spec v 66) as [-> | ?]; [auto 6 |].
  do 4 right. auto.
Qed.

Lemma decode_low7 (h : Z) : decode h = decode_key_value (Z.land h 0x7F).
Proof. unfold decode. now rewrite key_value_low7. Qed.

Lemma decode_None (h : Z) :
  decode h = None <->
  Z.land h 0x7F <> 56 /\ Z.land h 0x7F <> 57 /\
  Z.land h 0x7F <> 66 /\ Z.land h 0x7F <> 67.
Proof.
  rewrite decode_low7.
  destruct (decode_key_value_cases (Z.land h 0x7F))
    as [[E D] | [[E D] | [[E D] | [[E D] | (?&?&?&?&D)]]]];
    rewrite D; try rewrite E; split; intros; try discriminate; try lia; auto.
Qed.

Lemma decode_Some (h c v : Z) :
  decode h = Some (c, v) ->
  (Z.land h 0x7F = 57 /\ c = 57 /\ v = 1) \/
  (Z.land h 0x7F = 56 /\ c = 57 /\ v = 0) \/
  (Z.land h 0x7F = 67 /\ c = 67 /\ v = 1) \/
  (Z.land h 0x7F = 66 /\ c = 67 /\ v = 0).
Proof.
  rewrite decode_low7.
  destruct (decode_key_value_cases (Z.land h 0x7F))
    as [[E D] | [[E D] | [[E D] | [[E D] | (?&?&?&?&D)]]]];
    rewrite D; intros [= <- <-]; auto 6.
Qed.

(** After the [switch], [event_type_to_report] is no longer -1 and fits an
    [unsigned int] as it is. *)
Lemma decode_type_set (h c v : Z) :
  decode h = Some (c, v) -> (v =? -1) = false /\ to_u32 v = v.
Proof.
  intros D. apply decode_Some in D.
  destruct D as [(_&_&->) | [(_&_&->) | [(_&_&->) | (_&_&->)]]]; now compute.
Qed.

Lemma decode_is_Some (h : Z) :
  is_Some (decode h) <->
  Z.land h 0x7F = 56 \/ Z.land h 0x7F = 57 \/
  Z.land h 0x7F = 66 \/ Z.land h 0x7F = 67.
Proof.
  split.
  - intros [[c v] D]. apply decode_Some in D. intuition.
  - intros Hl. destruct (decode h) eqn:D; [eauto |].
    apply decode_None in D. lia.
Qed.

(** ** The notification handler, path by path *)

Section Runs.

Context {K : Type} `{KernelAPI K}.
Implicit Types (s : state K) (device tbtn : ptr) (t : tbtn_dev).

Lemma called_start c k s : called c k s = advanced s k [c].
Proof. reflexivity. Qed.

Lemma advanced_advanced s k0 new0 k new :
  advanced (advanced s k0 new0) k new = advanced s k (new0 ++ new).
Proof. unfold advanced; simpl. now rewrite <- app_assoc. Qed.

Lemma context_of_Some s device t :
  context_of s device = Some t ->
  exists d a,
    device ≫= (acpi_devices s !!.) = Some d /\
    driver_data d = Some a /\
    tbtn_devs s !! a = Some t.
Proof.
  unfold context_of. destruct (device ≫= _) as [d |]; [| discriminate].
  destruct (driver_data d) as [a |] eqn:Ea; [| discriminate].
  simpl. eauto.
Qed.

Lemma context_not_uninitialized s device t :
  context_of s device = Some t ->
  uninitialized s device = is_null (input_dev t).
Proof.
  intros (d & a & Hd & Ha & Ht)%context_of_Some.
  unfold uninitialized. now rewrite Hd, Ha, Ht.
Qed.

(** A well-formed device is either caught by the guard or has a context
    with an input device. *)
Lemma well_formed_cases s device :
  well_formed s device = true ->
  uninitialized s device = true \/
  exists t, context_of s device = Some t /\ is_null (input_dev t) = false.
Proof.
  unfold well_formed, uninitialized, context_of.
  destruct (device ≫= _) as [d |]; [| discriminate].
  destruct (driver_data d) as [a |]; [| auto]. simpl.
  destruct (tbtn_devs s !! a) as [t |] eqn:Et.
  - intros _. destruct (is_null (input_dev t)) eqn:En; eauto.
  - intros Hw. apply bool_decide_eq_true in Hw. now destruct Hw.
Qed.

Ltac enter :=
  unfold tbtn_notify_handler, acpi_driver_data, deref_acpi, deref_tbtn,
    bind, ret, pr_warn, pr_info, pr_err, printk,
    call_acpi_evaluate_integer, call_sparse_keymap_report_event;
  simpl.

Ltac finish :=
  rewrite ?called_start, ?advanced_advanced; reflexivity.

Lemma handler_uninitialized s device event :
  uninitialized s device = true ->
  tbtn_notify_handler device event s
  = Done tt (advanced s (kern s)
      [Printk KERN_WARNING
         "tbtn: Received notify for uninitialized device\n" []]).
Proof.
  unfold uninitialized. enter.
  destruct (device ≫= _) as [d |]; [| discriminate].
  destruct (driver_data d) as [a |]; simpl; [| reflexivity].
  destruct (tbtn_devs s !! a) as [t |]; [| discriminate].
  now intros ->.
Qed.

Lemma handler_unknown_event s device event t :
  context_of s device = Some t ->
  is_null (input_dev t) = false ->
  event <> 0x80 ->
  tbtn_notify_handler device event s
  = Done tt (advanced s (kern s)
      [Printk KERN_INFO "tbtn: Received unknown event 0x%x\n"
         [ArgInt event]]).
Proof.
  intros (d & a & Hd & Ha & Ht)%context_of_Some Hi Hev. enter.
  rewrite Hd, Ha; simpl. rewrite Ht, Hi.
  apply Z.eqb_neq in Hev. now rewrite Hev.
Qed.

Lemma handler_hinf_failed s device t status data k :
  context_of s device = Some t ->
  is_null (input_dev t) = false ->
  acpi_evaluate_integer (handle t) "HINF" (kern s) = ((status, data), k) ->
  status <> AE_OK ->
  tbtn_notify_handler device 0x80 s
  = Done tt (advanced s k
      [Printk KERN_INFO "tbtn: Notify 0x80 received\n" [];
       AcpiEvaluateInteger (handle t) "HINF" status data;
       Printk KERN_ERR "tbtn: Failed to evaluate HINF: %s\n"
         [ArgStr (acpi_format_exception status)]]).
Proof.
  intros (d & a & Hd & Ha & Ht)%context_of_Some Hi Hq Hst. enter.
  rewrite Hd, Ha; simpl. rewrite Ht, Hi; simpl. rewrite Ht; simpl. rewrite Hq.
  unfold ACPI_FAILURE. apply Z.eqb_neq in Hst. rewrite Hst. simpl.
  finish.
Qed.

Lemma handler_unhandled s device t hinf_result k :
  context_of s device = Some t ->
  is_null (input_dev t) = false ->
  acpi_evaluate_integer (handle t) "HINF" (kern s)
    = ((AE_OK, hinf_result), k) ->
  decode hinf_result = None ->
  tbtn_notify_handler device 0x80 s
  = Done tt (advanced s k
      [Printk KERN_INFO "tbtn: Notify 0x80 received\n" [];
       AcpiEvaluateInteger (handle t) "HINF" AE_OK hinf_result;
       Printk KERN_INFO "tbtn: HINF returned 0x%llx\n" [ArgInt hinf_result];
       Printk KERN_WARNING
         ("tbtn: Received unhandled HINF key_value: 0x%x" ++ LF)
         [ArgInt (key_value_of hinf_result)]]).
Proof.
  intros (d & a & Hd & Ha & Ht)%context_of_Some Hi Hq Hdec. enter.
  rewrite Hd, Ha; simpl. rewrite Ht, Hi; simpl. rewrite Ht; simpl. rewrite Hq. simpl.
  unfold decode in Hdec. rewrite Hdec. finish.
Qed.

Lemma handler_reported s device t hinf_result k1 c v ok k2 :
  context_of s device = Some t ->
  is_null (input_dev t) = false ->
  acpi_evaluate_integer (handle t) "HINF" (kern s)
    = ((AE_OK, hinf_result), k1) ->
  decode hinf_result = Some (c, v) ->
  sparse_keymap_report_event (input_dev t) c (to_u32 v) true k1 = (ok, k2) ->
  tbtn_notify_handler device 0x80 s
  = Done tt (advanced s k2
      [Printk KERN_INFO "tbtn: Notify 0x80 received\n" [];
       AcpiEvaluateInteger (handle t) "HINF" AE_OK hinf_result;
       Printk KERN_INFO "tbtn: HINF returned 0x%llx\n" [ArgInt hinf_result];
       SparseKeymapReportEvent (input_dev t) c (to_u32 v) true ok;
       if ok then
         Printk KERN_INFO
           ("tbtn: Reported key event: report_key=%u, report_type=%d" ++ LF)
           [ArgInt c; ArgInt v]
       else
         Printk KERN_WARNING
           ("tbtn: Failed to report HINF event via sparse_keymap: HINF_raw=0x%llx, report_key=%u, report_type=%d"
              ++ LF)
           [ArgInt hinf_result; ArgInt c; ArgInt v]]).
Proof.
  intros (d & a & Hd & Ha & Ht)%context_of_Some Hi Hq Hdec Hr. enter.
  rewrite Hd, Ha; simpl. rewrite Ht, Hi; simpl. rewrite Ht; simpl. rewrite Hq. simpl.
  destruct (decode_type_set _ _ _ Hdec) as [Hne _].
  unfold decode in Hdec. rewrite Hdec, Hne. simpl. rewrite Ht. simpl.
  rewrite Hr. destruct ok; simpl; finish.
Qed.

(** Every call of the handler on a well-formed device returns, along one
    of the five paths. *)
Lemma handler_total s device event :
  well_formed s device = true ->
  exists k new,
    tbtn_notify_handler device event s = Done tt (advanced s k new) /\
    handler_run s device event k new.
Proof.
  intros [Hu | (t & Hc & Hi)]%well_formed_cases.
  { eexists _, _. split; [apply handler_uninitialized; exact Hu |].
    now constructor. }
  destruct (Z.eq_dec event 0x80) as [-> | Hev].
  2: { eexists _, _. split; [eapply handler_unknown_event; eassumption |].
       econstructor; eauto. }
  destruct (acpi_evaluate_integer (handle t) "HINF" (kern s))
    as [[status hinf_result] k1] eqn:Hq.
  destruct (Z.eq_dec status AE_OK) as [-> | Hst].
  2: { eexists _, _. split; [eapply handler_hinf_failed; eassumption |].
       econstructor; eauto. }
  destruct (decode hinf_result) as [[c v] |] eqn:Hdec.
  2: { eexists _, _. split; [eapply handler_unhandled; eassumption |].
       econstructor; eauto. }
  destruct (sparse_keymap_report_event (input_dev t) c (to_u32 v) true k1)
    as [ok k2] eqn:Hr.
  eexists _, _. split; [eapply handler_reported; eassumption |].
  econstructor; eauto.
Qed.

End Runs.

(** ** The bind, path by path *)

Section Bind.

Context {K : Type} `{KernelAPI K}.
Implicit Types (s : state K) (device : ptr).

Ltac enter_add :=
  unfold tbtn_add, acpi_device_hid, deref_acpi, deref_tbtn, deref_input,
    store_acpi, store_tbtn, store_input, call_devm_kzalloc,
    call_devm_input_allocate_device, call_sparse_keymap_setup,
    call_input_register_device, bind, ret, pr_err, pr_info, printk;
  simpl.

Ltac recorded :=
  simpl; rewrite <- ?app_assoc; reflexivity.

(** Every bind on a live ACPI device returns, along one of the five
    paths, and only adds to the record of calls. *)
Lemma add_total s device d :
  device ≫= (acpi_devices s !!.) = Some d ->
  exists r s' new,
    tbtn_add device s = Done r s' /\
    trace s' = (trace s ++ new)%list /\
    add_run s device r new.
Proof.
  intros Hd. destruct device as [a0 |]; [| discriminate].
  pose proof Hd as Hd0. simpl in Hd0.
  enter_add. rewrite Hd0. simpl.
  destruct (devm_kzalloc (kern s)) as [[a |] k1] eqn:E1; simpl.
  2: { eexists _, _, _. split; [reflexivity |]. split; [recorded |].
       eapply add_no_context; eauto. }
  rewrite Hd0. simpl. rewrite lookup_insert_eq. simpl. rewrite Hd0. simpl.
  destruct (devm_input_allocate_device k1) as [[i |] k2] eqn:E2; simpl.
  2: { eexists _, _, _. split; [reflexivity |]. split; [recorded |].
       eapply add_no_input_device; eauto. }
  rewrite !lookup_insert_eq. simpl.
  destruct (sparse_keymap_setup (Some i) tbtn_keymap k2)
    as [error k3] eqn:E3; simpl.
  destruct (Z.eqb_spec error 0) as [-> | Hne]; simpl.
  2: { eexists _, _, _. split; [reflexivity |]. split; [recorded |].
       eapply add_setup_failed; eauto. }
  rewrite !lookup_insert_eq. simpl.
  destruct (input_register_device (Some i) k3) as [error k4] eqn:E4; simpl.
  destruct (Z.eqb_spec error 0) as [-> | Hne]; simpl.
  2: { eexists _, _, _. split; [reflexivity |]. split; [recorded |].
       eapply add_register_failed; eauto. }
  rewrite lookup_insert_eq. simpl.
  eexists _, _, _. split; [reflexivity |]. split; [recorded |].
  eapply add_bound; eauto.
Qed.

End Bind.

(** ** The driver on the simulated kernel *)

(** Raw value 0x39 on a bound device: PROG1 pressed. *)
Example notify_0x39 :
  tbtn_notify_handler Sim.the_device 0x80 (Sim.bound [(AE_OK, 0x39)])
  = Done tt
      (advanced (Sim.bound [(AE_OK, 0x39)]) (Sim.booted [] tbtn_keymap)
         [Printk KERN_INFO "tbtn: Notify 0x80 received\n" [];
          AcpiEvaluateInteger (Some 7%positive) "HINF" AE_OK 0x39;
          Printk KERN_INFO "tbtn: HINF returned 0x%llx\n" [ArgInt 0x39];
          SparseKeymapReportEvent (Some 3%positive) 57 1 true true;
          Printk KERN_INFO
            ("tbtn: Reported key event: report_key=%u, report_type=%d" ++ LF)
            [ArgInt 57; ArgInt 1]]).
Proof. vm_compute. reflexivity. Qed.

(** A bind that goes through leaves the context the handler needs: the
    next notification with raw value 0x38 reports PROG1 released. *)
Example bind_then_notify :
  match
    tbtn_add Sim.the_device
      (Sim.machine (Sim.probing [Some 2%positive; Some 3%positive] 0 0) None)
  with
  | Done r s1 =>
      r = 0 /\
      context_of s1 Sim.the_device = Some Sim.bound_context /\
      registrations (trace s1) = [Some 3%positive] /\
      match
        tbtn_notify_handler Sim.the_device 0x80
          (later s1 (Sim.booted [(AE_OK, 0x38)] tbtn_keymap))
      with
      | Done _ s2 => emissions (trace s2) = [(Some 3%positive, 57, 0, true)]
      | Fault => False
      end
  | Fault => False
  end.
Proof. vm_compute. repeat split. Qed.

(** A bind whose keymap setup fails leaves a context without input device,
    which the guard of the handler catches. *)
Example failed_bind_then_notify :
  match
    tbtn_add Sim.the_device
      (Sim.machine (Sim.probing [Some 2%positive; Some 3%positive] (-22) 0)
         None)
  with
  | Done r s1 =>
      r = -22 /\
      registrations (trace s1) = [] /\
      uninitialized s1 Sim.the_device = true
  | Fault => False
  end.
Proof. vm_compute. repeat split. Qed.

(** ** What a run tells about the decoder *)

Section Readings.

Context {K : Type} `{KernelAPI K}.
Implicit Types (s : state K) (device : ptr).

Lemma input_of_context s device t :
  context_of s device = Some t -> input_of s device = input_dev t.
Proof. unfold input_of. now intros ->. Qed.

Lemma handler_returns_unique s device event k new k' new' :
  handler_returns s device event k new ->
  handler_returns s device event k' new' ->
  k = k' /\ new = new'.
Proof.
  unfold handler_returns. intros -> [= Hk Hn].
  split; [assumption |]. now apply app_inv_head in Hn.
Qed.

(** A successful firmware query in the record pins the run down to the
    decoding paths. *)
Lemma successful_evaluation s device event k new h method hinf_result :
  handler_run s device event k new ->
  In (AcpiEvaluateInteger h method AE_OK hinf_result) new ->
  event = 0x80 /\
  evaluations new = [(h, method, AE_OK, hinf_result)] /\
  ((decode hinf_result = None /\
    emissions new = [] /\
    warnings new =
      [("tbtn: Received unhandled HINF key_value: 0x%x" ++ LF,
        [ArgInt (Z.land hinf_result 0x7F)])]) \/
   (exists c v,
      decode hinf_result = Some (c, v) /\
      emissions new = [(input_of s device, c, v, true)])).
Proof.
  intros Hr Hin. destruct Hr; try destruct ok; simpl in Hin;
    repeat (destruct Hin as [Hin | Hin]; try discriminate Hin);
    try contradiction; inversion Hin; subst; try congruence;
    (split; [reflexivity |]); (split; [reflexivity |]).
  - left. split; [assumption |]. split; [reflexivity |].
    simpl. now rewrite key_value_low7.
  - right. exists report_key_value, event_type_to_report.
    split; [assumption |].
    match goal with
    | D : decode _ = Some _ |- _ =>
        destruct (decode_type_set _ _ _ D) as [_ ->]
    end.
    now erewrite input_of_context by eassumption.
  - right. exists report_key_value, event_type_to_report.
    split; [assumption |].
    match goal with
    | D : decode _ = Some _ |- _ =>
        destruct (decode_type_set _ _ _ D) as [_ ->]
    end.
    now erewrite input_of_context by eassumption.
Qed.

(** Any emission in the record comes from a successful query that the
    decoder recognised. *)
Lemma emission_origin s device event k new :
  handler_run s device event k new ->
  emissions new <> [] ->
  exists h hinf_result,
    In (AcpiEvaluateInteger h "HINF" AE_OK hinf_result) new /\
    is_Some (decode hinf_result).
Proof.
  intros Hr Hne. destruct Hr; simpl in Hne; try congruence.
  eexists _, _. split; [right; left; reflexivity |].
  match goal with D : decode _ = Some _ |- _ => rewrite D end. eauto.
Qed.

End Readings.

Lemma decoded_event_of_decode (h c v : Z) :
  decode h = Some (c, v) ->
  decoded_event h =
    Some (if c =? 57 then KEY_PROG1 else KEY_PROG2, direction_of v).
Proof.
  intros D. unfold decoded_event. rewrite D.
  apply decode_Some in D.
  destruct D as [(_&->&->) | [(_&->&->) | [(_&->&->) | (_&->&->)]]];
    reflexivity.
Qed.

(** * The claims *)

(** C1.  Whenever a notification gets a raw status value from the firmware
    (a successful HINF evaluation), low 7 bits 57 decode to (PROG1, pressed),
    56 to (PROG1, released), 67 to (PROG2, pressed) and 66 to
    (PROG2, released); and the one call to the event emitter carries exactly
    the code and value of that pair (57 or 67 for the key, 1 or 0 for the
    direction) for the context's input device. *)
Theorem decoder_yields_enumerated_pairs {K : Type} `{KernelAPI K}
    (s : state K) (device : ptr) (event : Z) :
  well_formed s device = true ->
  exists k new,
    handler_returns s device event k new /\
    forall h method hinf_result,
      is_u64 hinf_result ->
      In (AcpiEvaluateInteger h method AE_OK hinf_result) new ->
      (Z.land hinf_result 0x7F = 57 ->
       decoded_event hinf_result = Some (KEY_PROG1, pressed) /\
       emissions new = [(input_of s device, 57, 1, true)]) /\
      (Z.land hinf_result 0x7F = 56 ->
       decoded_event hinf_result = Some (KEY_PROG1, released) /\
       emissions new = [(input_of s device, 57, 0, true)]) /\
      (Z.land hinf_result 0x7F = 67 ->
       decoded_event hinf_result = Some (KEY_PROG2, pressed) /\
       emissions new = [(input_of s device, 67, 1, true)]) /\
      (Z.land hinf_result 0x7F = 66 ->
       decoded_event hinf_result = Some (KEY_PROG2, released) /\
       emissions new = [(input_of s device, 67, 0, true)]).
Proof.
  intros Hwf.
  destruct (handler_total s device event Hwf) as (k & new & Hret & Hrun).
  exists k, new. split; [exact Hret |].
  intros h method hinf_result _ Hin.
  destruct (successful_evaluation _ _ _ _ _ _ _ _ Hrun Hin)
    as (_ & _ & [(Hnone & _) | (c & v & Hdec & Hem)]).
  { apply decode_None in Hnone. repeat split; intros; lia. }
  rewrite Hem, (decoded_event_of_decode _ _ _ Hdec).
  apply decode_Some in Hdec.
  destruct Hdec as [(E&->&->) | [(E&->&->) | [(E&->&->) | (E&->&->)]]];
    repeat split; intros; try lia; reflexivity.
Qed.

Lemma decoder_yields_enumerated_pairs_witness :
  (exists k new,
     handler_returns (Sim.bound [(AE_OK, 0x39)]) Sim.the_device 0x80 k new /\
     decoded_event 0x39 = Some (KEY_PROG1, pressed) /\
     emissions new = [(Some 3%positive, 57, 1, true)]) /\
  (exists k new,
     handler_returns (Sim.bound [(AE_OK, 0x38)]) Sim.the_device 0x80 k new /\
     decoded_event 0x38 = Some (KEY_PROG1, released) /\
     emissions new = [(Some 3%positive, 57, 0, true)]) /\
  (exists k new,
     handler_returns (Sim.bound [(AE_OK, 0x43)]) Sim.the_device 0x80 k new /\
     decoded_event 0x43 = Some (KEY_PROG2, pressed) /\
     emissions new = [(Some 3%positive, 67, 1, true)]) /\
  (exists k new,
     handler_returns (Sim.bound [(AE_OK, 0xFFFFFFFFFFFFFFC2)])
       Sim.the_device 0x80 k new /\
     decoded_event 0xFFFFFFFFFFFFFFC2 = Some (KEY_PROG2, released) /\
     emissions new = [(Some 3%positive, 67, 0, true)]).
Proof.
  repeat split.
  - destruct (decoder_yields_enumerated_pairs
                (Sim.bound [(AE_OK, 0x39)]) Sim.the_device 0x80 eq_refl)
      as (k & new & Hret & Hp).
    exists k, new. split; [exact Hret |].
    assert (Hin : In (AcpiEvaluateInteger (Some 7%positive) "HINF" AE_OK 0x39)
                    new).
    { unfold handler_returns in Hret. vm_compute in Hret.
      injection Hret as _ <-. right; left; reflexivity. }
    assert (Hu : is_u64 0x39) by (unfold is_u64; lia).
    destruct (Hp _ _ _ Hu Hin) as (Hcase & _). apply Hcase. reflexivity.
  - destruct (decoder_yields_enumerated_pairs
                (Sim.bound [(AE_OK, 0x38)]) Sim.the_device 0x80 eq_refl)
      as (k & new & Hret & Hp).
    exists k, new. split; [exact Hret |].
    assert (Hin : In (AcpiEvaluateInteger (Some 7%positive) "HINF" AE_OK 0x38)
                    new).
    { unfold handler_returns in Hret. vm_compute in Hret.
      injection Hret as _ <-. right; left; reflexivity. }
    assert (Hu : is_u64 0x38) by (unfold is_u64; lia).
    destruct (Hp _ _ _ Hu Hin) as (_ & Hcase & _). apply Hcase. reflexivity.
  - destruct (decoder_yields_enumerated_pairs
                (Sim.bound [(AE_OK, 0x43)]) Sim.the_device 0x80 eq_refl)
      as (k & new & Hret & Hp).
    exists k, new. split; [exact Hret |].
    assert (Hin : In (AcpiEvaluateInteger (Some 7%positive) "HINF" AE_OK 0x43)
                    new).
    { unfold handler_returns in Hret. vm_compute in Hret.
      injection Hret as _ <-. right; left; reflexivity. }
    assert (Hu : is_u64 0x43) by (unfold is_u64; lia).
    destruct (Hp _ _ _ Hu Hin) as (_ & _ & Hcase & _).
    apply Hcase. reflexivity.
  - destruct (decoder_yields_enumerated_pairs
                (Sim.bound [(AE_OK, 0xFFFFFFFFFFFFFFC2)])
                Sim.the_device 0x80 eq_refl)
      as (k & new & Hret & Hp).
    exists k, new. split; [exact Hret |].
    assert (Hin : In (AcpiEvaluateInteger (Some 7%positive) "HINF" AE_OK
                        0xFFFFFFFFFFFFFFC2) new).
    { unfold handler_returns in Hret. vm_compute in Hret.
      injection Hret as _ <-. right; left; reflexivity. }
    assert (Hu : is_u64 0xFFFFFFFFFFFFFFC2) by (unfold is_u64; lia).
    destruct (Hp _ _ _ Hu Hin) as (_ & _ & _ & Hcase).
    apply Hcase. reflexivity.
Defined.

(** C2.  Two raw status values that agree on bits 0-6 decode alike: the
    same (code, value) pair or unrecognized for both, hence the same
    (key, direction); and two runs of the handler on the same driver memory
    that received them hand the same thing to the event emitter.  Bit 7 and
    the upper bits play no part, although [key_event_type] is computed from
    bit 7. *)
Theorem decoding_reads_low7_only {K : Type} `{KernelAPI K}
    (hinf1 hinf2 : Z) (s1 s2 : state K) (device : ptr) (event : Z) :
  is_u64 hinf1 -> is_u64 hinf2 ->
  Z.land hinf1 0x7F = Z.land hinf2 0x7F ->
  decode hinf1 = decode hinf2 /\
  decoded_event hinf1 = decoded_event hinf2 /\
  (well_formed s1 device = true ->
   well_formed s2 device = true ->
   driver_state s1 = driver_state s2 ->
   exists k1 new1 k2 new2,
     handler_returns s1 device event k1 new1 /\
     handler_returns s2 device event k2 new2 /\
     forall h1 m1 h2 m2,
       In (AcpiEvaluateInteger h1 m1 AE_OK hinf1) new1 ->
       In (AcpiEvaluateInteger h2 m2 AE_OK hinf2) new2 ->
       emissions new1 = emissions new2 /\
       (emissions new1 = [] -> warnings new1 = warnings new2)).
Proof.
  intros _ _ Hlow.
  assert (Hdec : decode hinf1 = decode hinf2)
    by now rewrite !decode_low7, Hlow.
  split; [exact Hdec |].
  split; [unfold decoded_event; now rewrite Hdec |].
  intros Hwf1 Hwf2 Hmem.
  destruct (handler_total s1 device event Hwf1) as (k1 & new1 & Hret1 & Hrun1).
  destruct (handler_total s2 device event Hwf2) as (k2 & new2 & Hret2 & Hrun2).
  exists k1, new1, k2, new2. split; [exact Hret1 |]. split; [exact Hret2 |].
  intros h1 m1 h2 m2 Hin1 Hin2.
  assert (Hinput : input_of s1 device = input_of s2 device).
  { unfold input_of, context_of. unfold driver_state in Hmem.
    injection Hmem as -> -> _. reflexivity. }
  destruct (successful_evaluation _ _ _ _ _ _ _ _ Hrun1 Hin1)
    as (_ & _ & [(Hn1 & -> & ->) | (c1 & v1 & Hd1 & ->)]);
  destruct (successful_evaluation _ _ _ _ _ _ _ _ Hrun2 Hin2)
    as (_ & _ & [(Hn2 & -> & ->) | (c2 & v2 & Hd2 & ->)]);
    try congruence.
  - now rewrite Hlow.
  - split; [| discriminate]. rewrite Hinput. congruence.
Qed.

Lemma decoding_reads_low7_only_witness :
  key_event_type_of 0x39 <> key_event_type_of 0xFFFFFFFFFFFFFFB9 /\
  decode 0x39 = decode 0xFFFFFFFFFFFFFFB9 /\
  decoded_event 0x39 = decoded_event 0xFFFFFFFFFFFFFFB9 /\
  exists k1 new1 k2 new2,
    handler_returns (Sim.bound [(AE_OK, 0x39)]) Sim.the_device 0x80 k1 new1 /\
    handler_returns (Sim.bound [(AE_OK, 0xFFFFFFFFFFFFFFB9)])
      Sim.the_device 0x80 k2 new2 /\
    emissions new1 = emissions new2.
Proof.
  assert (Hu1 : is_u64 0x39) by (unfold is_u64; lia).
  assert (Hu2 : is_u64 0xFFFFFFFFFFFFFFB9) by (unfold is_u64; lia).
  destruct (decoding_reads_low7_only 0x39 0xFFFFFFFFFFFFFFB9
              (Sim.bound [(AE_OK, 0x39)])
              (Sim.bound [(AE_OK, 0xFFFFFFFFFFFFFFB9)])
              Sim.the_device 0x80 Hu1 Hu2 eq_refl)
    as (Hdec & Hev & Hruns).
  split; [vm_compute; discriminate |].
  split; [exact Hdec |]. split; [exact Hev |].
  destruct (Hruns eq_refl eq_refl eq_refl)
    as (k1 & new1 & k2 & new2 & Hret1 & Hret2 & Hsame).
  exists k1, new1, k2, new2. split; [exact Hret1 |]. split; [exact Hret2 |].
  refine (proj1 (Hsame (Some 7%positive) "HINF" (Some 7%positive) "HINF" _ _)).
  - unfold handler_returns in Hret1. vm_compute in Hret1.
    injection Hret1 as _ <-. right; left; reflexivity.
  - unfold handler_returns in Hret2. vm_compute in Hret2.
    injection Hret2 as _ <-. right; left; reflexivity.
Defined.

(** C3.  Whenever a notification gets a raw status value whose low 7 bits
    are none of 56, 57, 66, 67, the decoder yields unrecognized, nothing is
    handed to the event emitter, and exactly one warning is logged (the
    unhandled key value).  0x7F is such a value. *)
Theorem unrecognised_value_is_dropped {K : Type} `{KernelAPI K}
    (s : state K) (device : ptr) (event : Z) :
  well_formed s device = true ->
  ~ recognised (Z.land 0x7F 0x7F) /\
  exists k new,
    handler_returns s device event k new /\
    forall h method hinf_result,
      is_u64 hinf_result ->
      In (AcpiEvaluateInteger h method AE_OK hinf_result) new ->
      ~ recognised (Z.land hinf_result 0x7F) ->
      decode hinf_result = None /\
      decoded_event hinf_result = None /\
      emissions new = [] /\
      warnings new =
        [("tbtn: Received unhandled HINF key_value: 0x%x" ++ LF,
          [ArgInt (Z.land hinf_result 0x7F)])].
Proof.
  intros Hwf.
  split; [unfold recognised; change (Z.land 0x7F 0x7F) with 127; lia |].
  destruct (handler_total s device event Hwf) as (k & new & Hret & Hrun).
  exists k, new. split; [exact Hret |].
  intros h method hinf_result _ Hin Hnot.
  destruct (successful_evaluation _ _ _ _ _ _ _ _ Hrun Hin)
    as (_ & _ & [(Hnone & Hem & Hw) | (c & v & Hdec & _)]).
  - unfold decoded_event. rewrite Hnone. auto.
  - exfalso. apply Hnot. unfold recognised.
    apply decode_Some in Hdec. lia.
Qed.

Lemma unrecognised_value_is_dropped_witness :
  exists k new,
    handler_returns (Sim.bound [(AE_OK, 0x7F)]) Sim.the_device 0x80 k new /\
    emissions new = [] /\
    warnings new =
      [("tbtn: Received unhandled HINF key_value: 0x%x" ++ LF, [ArgInt 0x7F])].
Proof.
  destruct (unrecognised_value_is_dropped
              (Sim.bound [(AE_OK, 0x7F)]) Sim.the_device 0x80 eq_refl)
    as (Hnot & k & new & Hret & Hp).
  exists k, new. split; [exact Hret |].
  assert (Hin : In (AcpiEvaluateInteger (Some 7%positive) "HINF" AE_OK 0x7F)
                  new).
  { unfold handler_returns in Hret. vm_compute in Hret.
    injection Hret as _ <-. right; left; reflexivity. }
  assert (Hu : is_u64 0x7F) by (unfold is_u64; lia).
  destruct (Hp _ _ _ Hu Hin Hnot) as (_ & _ & Hem & Hw).
  split; [exact Hem | exact Hw].
Defined.

(** C4.  The static keymap is the entry 57 -> PROG1, the entry 67 -> PROG2,
    then the sentinel; the raw codes before the sentinel are pairwise
    distinct; and every code the decoder can produce, hence every code a run
    of the handler hands to the event emitter, is 57 or 67 and has its entry
    in the table. *)
Theorem keymap_covers_decoder :
  map (fun ke => (type ke, code ke, keycode ke)) tbtn_keymap
    = [(KE_KEY, 57, KEY_PROG1); (KE_KEY, 67, KEY_PROG2); (KE_END, 0, 0)] /\
  map (fun ke => (code ke, keycode ke)) (keymap_entries tbtn_keymap)
    = [(57, KEY_PROG1); (67, KEY_PROG2)] /\
  List.NoDup (map code (keymap_entries tbtn_keymap)) /\
  (forall hinf_result c v,
     decode hinf_result = Some (c, v) ->
     (c = 57 \/ c = 67) /\
     exists ke,
       keymap_find tbtn_keymap c = Some ke /\
       In ke (keymap_entries tbtn_keymap) /\ code ke = c) /\
  (forall (K : Type) (api : KernelAPI K) (s : state K) device event,
     well_formed s device = true ->
     exists k new,
       handler_returns s device event k new /\
       forall dev c v autorelease,
         In (dev, c, v, autorelease) (emissions new) ->
         (c = 57 \/ c = 67) /\ is_Some (keymap_find tbtn_keymap c)).
Proof.
  assert (Hcover : forall hinf_result c v,
             decode hinf_result = Some (c, v) ->
             (c = 57 \/ c = 67) /\
             exists ke,
               keymap_find tbtn_keymap c = Some ke /\
               In ke (keymap_entries tbtn_keymap) /\ code ke = c).
  { intros h c v D. apply decode_Some in D.
    destruct D as [(_&->&_) | [(_&->&_) | [(_&->&_) | (_&->&_)]]];
      (split; [auto |]); eexists; (split; [reflexivity |]);
      simpl; auto. }
  split; [reflexivity |]. split; [reflexivity |].
  split.
  { simpl. repeat constructor; simpl; intros Hin;
      repeat (destruct Hin as [Hin | Hin]; try discriminate Hin);
      try contradiction. }
  split; [exact Hcover |].
  intros K api s device event Hwf.
  destruct (handler_total s device event Hwf) as (k & new & Hret & Hrun).
  exists k, new. split; [exact Hret |].
  intros dev c v ar Hin.
  assert (Hne : emissions new <> []) by (intros E; now rewrite E in Hin).
  destruct (emission_origin _ _ _ _ _ Hrun Hne) as (h & hinf & Hev & _).
  destruct (successful_evaluation _ _ _ _ _ _ _ _ Hrun Hev)
    as (_ & _ & [(_ & Hem & _) | (c' & v' & Hdec & Hem)]);
    rewrite Hem in Hin; simpl in Hin; [contradiction |].
  destruct Hin as [[= <- <- <- <-] | []].
  destruct (Hcover _ _ _ Hdec) as (Hc & ke & -> & _). eauto.
Qed.

Lemma keymap_covers_decoder_witness :
  (exists ke, keymap_find tbtn_keymap 57 = Some ke /\ keycode ke = KEY_PROG1) /\
  exists k new,
    handler_returns (Sim.bound [(AE_OK, 0x42)]) Sim.the_device 0x80 k new /\
    emissions new = [(Some 3%positive, 67, 0, true)] /\
    is_Some (keymap_find tbtn_keymap 67).
Proof.
  destruct keymap_covers_decoder as (_ & _ & _ & Hdec & Hrun).
  split.
  - destruct (Hdec 0x39 57 1 eq_refl) as (_ & ke & Hke & Hin & _).
    exists ke. split; [exact Hke |].
    destruct Hin as [<- | [<- | []]]; [reflexivity | discriminate Hke].
  - destruct (Hrun _ _ (Sim.bound [(AE_OK, 0x42)]) Sim.the_device 0x80 eq_refl)
      as (k & new & Hret & Hp).
    exists k, new. split; [exact Hret |].
    assert (Hnew : emissions new = [(Some 3%positive, 67, 0, true)]).
    { unfold handler_returns in Hret. vm_compute in Hret.
      injection Hret as _ <-. reflexivity. }
    split; [exact Hnew |].
    apply (Hp (Some 3%positive) 67 0 true). rewrite Hnew. left. reflexivity.
Defined.

(** C5.  Whenever the HINF evaluation of a notification fails, the record
    of the run is exactly: the notice that 0x80 was received, the one
    evaluation, and the error log naming the failure (by the kernel's
    [acpi_format_exception]).
    Nothing is handed to the event emitter, the evaluation is not repeated,
    and the driver's memory (device context included) is as before. *)
Theorem hinf_failure_drops_notification {K : Type} `{KernelAPI K}
    (s : state K) (device : ptr) (event : Z) :
  well_formed s device = true ->
  exists k new,
    handler_returns s device event k new /\
    forall h method status data,
      In (AcpiEvaluateInteger h method status data) new ->
      status <> AE_OK ->
      new = [Printk KERN_INFO "tbtn: Notify 0x80 received\n" [];
             AcpiEvaluateInteger h method status data;
             Printk KERN_ERR "tbtn: Failed to evaluate HINF: %s\n"
               [ArgStr (acpi_format_exception status)]] /\
      emissions new = [] /\
      evaluations new = [(h, method, status, data)] /\
      driver_state (advanced s k new) = driver_state s /\
      context_of (advanced s k new) device = context_of s device.
Proof.
  intros Hwf.
  destruct (handler_total s device event Hwf) as (k & new & Hret & Hrun).
  exists k, new. split; [exact Hret |].
  intros h method status data Hin Hst.
  destruct Hrun; try destruct ok; simpl in Hin;
    repeat (destruct Hin as [Hin | Hin]; try discriminate Hin);
    try contradiction; inversion Hin; subst; try congruence.
  repeat split.
Qed.

Lemma hinf_failure_drops_notification_witness :
  exists k new,
    handler_returns (Sim.bound [(Sim.AE_ERROR, 0)]) Sim.the_device 0x80 k new /\
    emissions new = [] /\
    evaluations new = [(Some 7%positive, "HINF", Sim.AE_ERROR, 0)] /\
    context_of (advanced (Sim.bound [(Sim.AE_ERROR, 0)]) k new) Sim.the_device
      = Some Sim.bound_context.
Proof.
  destruct (hinf_failure_drops_notification
              (Sim.bound [(Sim.AE_ERROR, 0)]) Sim.the_device 0x80 eq_refl)
    as (k & new & Hret & Hp).
  exists k, new. split; [exact Hret |].
  assert (Hin : In (AcpiEvaluateInteger (Some 7%positive) "HINF"
                      Sim.AE_ERROR 0) new).
  { unfold handler_returns in Hret. vm_compute in Hret.
    injection Hret as _ <-. right; left; reflexivity. }
  assert (Hst : Sim.AE_ERROR <> AE_OK) by discriminate.
  destruct (Hp _ _ _ _ Hin Hst) as (_ & Hem & Hev & _ & Hctx).
  split; [exact Hem |]. split; [exact Hev |].
  rewrite Hctx. reflexivity.
Defined.

(** C6, as the code has it.  For an event code other than 0x80 the handler
    returns after a single log line, without evaluating HINF and without
    emitting: the line logs the unknown event when the device has its
    context and input device, and is the uninitialized-device warning when
    the guard at the top of the handler catches it.  A firmware query or an
    emission in a run means the event code was 0x80, and on an initialized
    device event code 0x80 does query the firmware, once. *)
Theorem other_events_are_ignored {K : Type} `{KernelAPI K}
    (s : state K) (device : ptr) (event : Z) :
  well_formed s device = true ->
  exists k new,
    handler_returns s device event k new /\
    (event <> 0x80 ->
     k = kern s /\
     evaluations new = [] /\
     emissions new = [] /\
     (uninitialized s device = false ->
      new = [Printk KERN_INFO "tbtn: Received unknown event 0x%x\n"
               [ArgInt event]]) /\
     (uninitialized s device = true ->
      new = [Printk KERN_WARNING
               "tbtn: Received notify for uninitialized device\n" []])) /\
    (evaluations new <> [] \/ emissions new <> [] -> event = 0x80) /\
    (event = 0x80 -> uninitialized s device = false ->
     exists h status data, evaluations new = [(h, "HINF", status, data)]).
Proof.
  intros Hwf.
  destruct (handler_total s device event Hwf) as (k & new & Hret & Hrun).
  exists k, new. split; [exact Hret |].
  destruct Hrun as [Hu | t Hc Hi Hev | t st data k Hc Hi Hev Hq Hst
                   | t hinf k Hc Hi Hev Hq Hd
                   | t hinf k1 c v ok k2 Hc Hi Hev Hq Hd Hr];
    try destruct ok;
    try (pose proof (context_not_uninitialized _ _ _ Hc) as Hu';
         rewrite Hi in Hu');
    (split; [intros Hne; try congruence; repeat split; congruence |]);
    (split; [simpl; intros [? | ?]; congruence |]);
    intros He Hu0; try congruence; simpl; eauto.
Qed.

Lemma other_events_are_ignored_witness :
  exists k new,
    handler_returns (Sim.bound [(AE_OK, 0x39)]) Sim.the_device 0x81 k new /\
    new = [Printk KERN_INFO "tbtn: Received unknown event 0x%x\n"
             [ArgInt 0x81]] /\
    evaluations new = [] /\
    emissions new = [].
Proof.
  destruct (other_events_are_ignored
              (Sim.bound [(AE_OK, 0x39)]) Sim.the_device 0x81 eq_refl)
    as (k & new & Hret & Hother & _).
  exists k, new. split; [exact Hret |].
  assert (Hne : 0x81 <> 0x80) by lia.
  destruct (Hother Hne) as (_ & Hev & Hem & Hlog & _).
  split; [exact (Hlog eq_refl) |]. split; [exact Hev | exact Hem].
Defined.

(** C6 as stated fails: on a device whose context pointer is [NULL], event
    code 0x81 is answered by the uninitialized-device warning, and the
    unknown event is not logged. *)
Lemma unknown_event_unlogged_without_context :
  0x81 <> 0x80 /\
  well_formed (Sim.machine (Sim.booted [] tbtn_keymap) None) Sim.the_device
    = true /\
  handler_returns (Sim.machine (Sim.booted [] tbtn_keymap) None)
    Sim.the_device 0x81 (Sim.booted [] tbtn_keymap)
    [Printk KERN_WARNING
       "tbtn: Received notify for uninitialized device\n" []] /\
  ~ unknown_event_logged 0x81
      [Printk KERN_WARNING
         "tbtn: Received notify for uninitialized device\n" []].
Proof.
  split; [lia |]. split; [reflexivity |]. split; [reflexivity |].
  unfold unknown_event_logged. simpl. intros [Hin | []]. discriminate Hin.
Qed.

(** C9.  When the device context pointer is [NULL], or the context's input
    device pointer is [NULL], the handler logs the uninitialized-device
    warning and returns at once, whatever the event code: HINF is not
    evaluated and nothing is handed to the event emitter. *)
Theorem uninitialized_device_is_guarded {K : Type} `{KernelAPI K}
    (s : state K) (device : ptr) (event : Z) (d : acpi_device) :
  device ≫= (acpi_devices s !!.) = Some d ->
  (driver_data d = None \/
   exists t, driver_data d ≫= (tbtn_devs s !!.) = Some t /\
             input_dev t = None) ->
  exists new,
    handler_returns s device event (kern s) new /\
    new = [Printk KERN_WARNING
             "tbtn: Received notify for uninitialized device\n" []] /\
    evaluations new = [] /\
    emissions new = [].
Proof.
  intros Hd Hnull.
  assert (Hu : uninitialized s device = true).
  { unfold uninitialized. rewrite Hd.
    destruct Hnull as [-> | (t & Ht & Hi)]; [reflexivity |].
    destruct (driver_data d) as [a |]; [| reflexivity].
    simpl in Ht. rewrite Ht, Hi. reflexivity. }
  eexists. split; [apply handler_uninitialized; exact Hu |].
  repeat split.
Qed.

Lemma uninitialized_device_is_guarded_witness :
  (exists new,
     handler_returns (Sim.machine (Sim.booted [(AE_OK, 0x39)] tbtn_keymap) None)
       Sim.the_device 0x80 (Sim.booted [(AE_OK, 0x39)] tbtn_keymap) new /\
     evaluations new = [] /\ emissions new = []) /\
  (exists new,
     handler_returns
       (Sim.machine (Sim.booted [(AE_OK, 0x39)] tbtn_keymap)
          (Some {| handle := Some 7%positive; input_dev := None |}))
       Sim.the_device 0x80 (Sim.booted [(AE_OK, 0x39)] tbtn_keymap) new /\
     evaluations new = [] /\ emissions new = []).
Proof.
  split.
  - destruct (uninitialized_device_is_guarded
                (Sim.machine (Sim.booted [(AE_OK, 0x39)] tbtn_keymap) None)
                Sim.the_device 0x80 _ eq_refl (or_introl eq_refl))
      as (new & Hret & _ & Hev & Hem).
    exists new. split; [exact Hret |]. split; [exact Hev | exact Hem].
  - destruct (uninitialized_device_is_guarded
                (Sim.machine (Sim.booted [(AE_OK, 0x39)] tbtn_keymap)
                   (Some {| handle := Some 7%positive; input_dev := None |}))
                Sim.the_device 0x80 _ eq_refl
                (or_intror (ex_intro _ _ (conj eq_refl eq_refl))))
      as (new & Hret & _ & Hev & Hem).
    exists new. split; [exact Hret |]. split; [exact Hev | exact Hem].
Defined.

(** C10.  Every call of the handler hands at most one event to the event
    emitter; it hands one exactly when the event code is 0x80 and the run
    contains a successful HINF evaluation whose value has low 7 bits among
    56, 57, 66, 67.  On a device with its context and input device this is:
    exactly when the event code is 0x80 and the firmware answers the
    evaluation with success and such a value. *)
Theorem at_most_one_emission {K : Type} `{KernelAPI K}
    (s : state K) (device : ptr) (event : Z) :
  well_formed s device = true ->
  exists k new,
    handler_returns s device event k new /\
    (length (emissions new) <= 1)%nat /\
    (length (emissions new) = 1%nat <->
     event = 0x80 /\
     exists h hinf_result,
       In (AcpiEvaluateInteger h "HINF" AE_OK hinf_result) new /\
       recognised (Z.land hinf_result 0x7F)) /\
    (forall t,
       context_of s device = Some t ->
       is_null (input_dev t) = false ->
       (length (emissions new) = 1%nat <->
        event = 0x80 /\
        exists hinf_result k1,
          acpi_evaluate_integer (handle t) "HINF" (kern s)
            = ((AE_OK, hinf_result), k1) /\
          recognised (Z.land hinf_result 0x7F))).
Proof.
  intros Hwf.
  destruct (handler_total s device event Hwf) as (k & new & Hret & Hrun).
  exists k, new. split; [exact Hret |].
  assert (Hle : (length (emissions new) <= 1)%nat).
  { destruct Hrun; try destruct ok; simpl; lia. }
  assert (Hiff : length (emissions new) = 1%nat <->
                 event = 0x80 /\
                 exists h hinf_result,
                   In (AcpiEvaluateInteger h "HINF" AE_OK hinf_result) new /\
                   recognised (Z.land hinf_result 0x7F)).
  { split.
    - intros Hone.
      assert (Hne : emissions new <> []) by (intros E; now rewrite E in Hone).
      destruct (emission_origin _ _ _ _ _ Hrun Hne) as (h & hinf & Hin & Hsome).
      destruct (successful_evaluation _ _ _ _ _ _ _ _ Hrun Hin) as (Hev & _).
      split; [exact Hev |]. exists h, hinf. split; [exact Hin |].
      now apply decode_is_Some.
    - intros (_ & h & hinf & Hin & Hrec).
      destruct (successful_evaluation _ _ _ _ _ _ _ _ Hrun Hin)
        as (_ & _ & [(Hnone & _) | (c & v & _ & ->)]); [| reflexivity].
      apply decode_is_Some in Hrec. rewrite Hnone in Hrec.
      now destruct Hrec. }
  split; [exact Hle |]. split; [exact Hiff |].
  intros t Hc Hi. rewrite Hiff. split.
  - intros (Hev & h & hinf & Hin & Hrec). split; [exact Hev |].
    destruct Hrun; try destruct ok; simpl in Hin;
      repeat (destruct Hin as [Hin | Hin]; try discriminate Hin);
      try contradiction; inversion Hin; subst; try congruence;
      replace t with t0 by congruence; eauto.
  - intros (Hev & hinf & k1 & Hq & Hrec). split; [exact Hev |].
    exists (handle t), hinf. split; [| exact Hrec].
    apply decode_is_Some in Hrec. destruct Hrec as [[c v] Hd].
    destruct (sparse_keymap_report_event (input_dev t) c (to_u32 v) true k1)
      as [ok k2] eqn:Hr.
    subst event.
    pose proof (handler_reported _ _ _ _ _ _ _ _ _ Hc Hi Hq Hd Hr) as Hret'.
    destruct (handler_returns_unique _ _ _ _ _ _ _ Hret Hret') as [_ ->].
    right; left; reflexivity.
Qed.

Lemma at_most_one_emission_witness :
  (exists k new,
     handler_returns (Sim.bound [(AE_OK, 0x43)]) Sim.the_device 0x80 k new /\
     length (emissions new) = 1%nat) /\
  (exists k new,
     handler_returns (Sim.bound [(AE_OK, 0x44)]) Sim.the_device 0x80 k new /\
     length (emissions new) <> 1%nat).
Proof.
  split.
  - destruct (at_most_one_emission
                (Sim.bound [(AE_OK, 0x43)]) Sim.the_device 0x80 eq_refl)
      as (k & new & Hret & _ & _ & Hiff).
    exists k, new. split; [exact Hret |].
    apply (Hiff Sim.bound_context eq_refl eq_refl).
    split; [reflexivity |]. eexists 0x43, _.
    split; [reflexivity |]. unfold recognised. vm_compute. lia.
  - destruct (at_most_one_emission
                (Sim.bound [(AE_OK, 0x44)]) Sim.the_device 0x80 eq_refl)
      as (k & new & Hret & _ & _ & Hiff).
    exists k, new. split; [exact Hret |].
    intros Hone.
    apply (Hiff Sim.bound_context eq_refl eq_refl) in Hone.
    destruct Hone as (_ & hinf & k1 & Hq & Hrec).
    injection Hq as <- _. unfold recognised in Hrec. vm_compute in Hrec. lia.
Defined.

(** C8.  When the event emitter reports failure, the handler logs one
    warning (the failed report) and returns; the driver's memory is as
    before, so a later notification, whatever the kernel then answers, runs
    exactly as it would have run without the failed one. *)
Theorem emission_failure_is_not_fatal {K : Type} `{KernelAPI K}
    (s : state K) (device : ptr) (event : Z) :
  well_formed s device = true ->
  exists k new,
    handler_returns s device event k new /\
    forall dev c v autorelease,
      In (SparseKeymapReportEvent dev c v autorelease false) new ->
      (exists hinf_result,
         warnings new =
           [("tbtn: Failed to report HINF event via sparse_keymap: HINF_raw=0x%llx, report_key=%u, report_type=%d"
               ++ LF,
             [ArgInt hinf_result; ArgInt c; ArgInt v])]) /\
      driver_state (advanced s k new) = driver_state s /\
      well_formed (advanced s k new) device = true /\
      forall k' event',
        tbtn_notify_handler device event' (later (advanced s k new) k')
        = tbtn_notify_handler device event' (later s k').
Proof.
  intros Hwf.
  destruct (handler_total s device event Hwf) as (k & new & Hret & Hrun).
  exists k, new. split; [exact Hret |].
  intros dev c v ar Hin.
  split; [| repeat split; exact Hwf].
  destruct Hrun; try destruct ok; simpl in Hin;
    repeat (destruct Hin as [Hin | Hin]; try discriminate Hin);
    try contradiction; inversion Hin; subst.
  match goal with
  | D : decode _ = Some _ |- _ =>
      destruct (decode_type_set _ _ _ D) as [_ ->]
  end.
  eexists. reflexivity.
Qed.

Lemma emission_failure_is_not_fatal_witness :
  exists k new,
    handler_returns
      (Sim.machine (Sim.booted [(AE_OK, 0x39); (AE_OK, 0x42)] [])
         (Some Sim.bound_context))
      Sim.the_device 0x80 k new /\
    In (SparseKeymapReportEvent (Some 3%positive) 57 1 true false) new /\
    length (warnings new) = 1%nat /\
    tbtn_notify_handler Sim.the_device 0x80
      (later
         (advanced
            (Sim.machine (Sim.booted [(AE_OK, 0x39); (AE_OK, 0x42)] [])
               (Some Sim.bound_context)) k new)
         (Sim.booted [(AE_OK, 0x42)] tbtn_keymap))
    = Done tt
        (advanced
           (later
              (Sim.machine (Sim.booted [(AE_OK, 0x39); (AE_OK, 0x42)] [])
                 (Some Sim.bound_context))
              (Sim.booted [(AE_OK, 0x42)] tbtn_keymap))
           (Sim.booted [] tbtn_keymap)
           [Printk KERN_INFO "tbtn: Notify 0x80 received\n" [];
            AcpiEvaluateInteger (Some 7%positive) "HINF" AE_OK 0x42;
            Printk KERN_INFO "tbtn: HINF returned 0x%llx\n" [ArgInt 0x42];
            SparseKeymapReportEvent (Some 3%positive) 67 0 true true;
            Printk KERN_INFO
              ("tbtn: Reported key event: report_key=%u, report_type=%d"
                 ++ LF)
              [ArgInt 67; ArgInt 0]]).
Proof.
  destruct (emission_failure_is_not_fatal
              (Sim.machine (Sim.booted [(AE_OK, 0x39); (AE_OK, 0x42)] [])
                 (Some Sim.bound_context))
              Sim.the_device 0x80 eq_refl)
    as (k & new & Hret & Hp).
  exists k, new. split; [exact Hret |].
  assert (Hin : In (SparseKeymapReportEvent (Some 3%positive) 57 1 true false)
                  new).
  { unfold handler_returns in Hret. vm_compute in Hret.
    injection Hret as _ <-. do 3 right. left. reflexivity. }
  split; [exact Hin |].
  destruct (Hp _ _ _ _ Hin) as ((hinf & Hw) & _ & _ & Hlater).
  split; [rewrite Hw; reflexivity |].
  rewrite Hlater. reflexivity.
Defined.

(** C7.  Every bind on a live ACPI device returns, and what it does is fixed
    by the kernel's answers.  It asks for the context; if that fails it
    returns [-ENOMEM] at once.  It then asks for the input device; if that
    fails it returns [-ENOMEM].  It then sets up the keymap; if the kernel
    answers with a non-zero code it returns that code.  Only then does it
    register the input device, and it returns the kernel's answer to that:
    the device is registered exactly when the bind returns 0.  So a failed
    allocation, keymap setup or registration is the last thing the bind asks
    of the kernel (only an error log follows): the bind returns a non-zero
    code and no device has been registered with the input core.  With a
    kernel that follows its error convention for keymap setup and
    registration, the code returned is negative.  Registration directly
    follows a keymap setup of the same device that returned 0, and no kernel
    work comes after it.  ([acpi_device_hid], which the bind calls to fill
    in its first and its last info line, is not kernel work in this
    sense.) *)
Theorem bind_failure_registers_nothing {K : Type} `{KernelAPI K}
    (s : state K) (device : ptr) (d : acpi_device) :
  device ≫= (acpi_devices s !!.) = Some d ->
  exists r s' new,
    tbtn_add device s = Done r s' /\
    trace s' = (trace s ++ new)%list /\
    match devm_kzalloc (kern s) with
    | (None, _) =>
        r = - ENOMEM /\ kernel_work new = [DevmKzalloc None]
    | (Some a, k1) =>
        match devm_input_allocate_device k1 with
        | (None, _) =>
            r = - ENOMEM /\
            kernel_work new
              = [DevmKzalloc (Some a); DevmInputAllocateDevice None]
        | (Some i, k2) =>
            let '(error, k3) := sparse_keymap_setup (Some i) tbtn_keymap k2 in
            if error =? 0 then
              let '(error, _) := input_register_device (Some i) k3 in
              r = error /\
              kernel_work new
                = [DevmKzalloc (Some a); DevmInputAllocateDevice (Some i);
                   SparseKeymapSetup (Some i) tbtn_keymap 0;
                   InputRegisterDevice (Some i) error] /\
              registrations new = (if error =? 0 then [Some i] else [])
            else
              r = error /\
              kernel_work new
                = [DevmKzalloc (Some a); DevmInputAllocateDevice (Some i);
                   SparseKeymapSetup (Some i) tbtn_keymap error]
        end
    end /\
    (r = 0 <-> exists dev, registrations new = [dev]) /\
    (forall c,
       In c new -> failed c = true ->
       r <> 0 /\
       r = error_code c /\
       (exists before, kernel_work new = (before ++ [c])%list) /\
       registrations new = []) /\
    (r <> 0 ->
     registrations new = [] /\ exists c, In c new /\ failed c = true) /\
    (forall dev err,
       In (InputRegisterDevice dev err) new ->
       exists before,
         kernel_work new =
           (before ++ [SparseKeymapSetup dev tbtn_keymap 0;
                       InputRegisterDevice dev err])%list) /\
    (errno_convention -> r = 0 \/ r < 0).
Proof.
  intros Hd.
  destruct (add_total s device d Hd) as (r & s' & new & Hret & Htr & Hrun).
  exists r, s', new. split; [exact Hret |]. split; [exact Htr |].
  assert (Hneg : - ENOMEM < 0) by (unfold ENOMEM; lia).
  split.
  { destruct Hrun as [d' k1 Hd' E1 | d' a k1 k2 Hd' E1 E2
                     | d' a k1 i k2 error k3 Hd' E1 E2 E3 Hne
                     | d' a k1 i k2 k3 error k4 Hd' E1 E2 E3 E4 Hne
                     | d' a k1 i k2 k3 k4 Hd' E1 E2 E3 E4];
      rewrite E1; try rewrite E2; try rewrite E3; simpl;
      try rewrite E4; simpl.
    - auto.
    - auto.
    - apply Z.eqb_neq in Hne. rewrite Hne. auto.
    - split; [reflexivity |]. split; [reflexivity |].
      destruct error; [now destruct Hne | reflexivity | reflexivity].
    - auto. }
  split.
  { destruct Hrun as [d' k1 Hd' E1 | d' a k1 k2 Hd' E1 E2
                     | d' a k1 i k2 error k3 Hd' E1 E2 E3 Hne
                     | d' a k1 i k2 k3 error k4 Hd' E1 E2 E3 E4 Hne
                     | d' a k1 i k2 k3 k4 Hd' E1 E2 E3 E4].
    - split; [lia | intros [dev Hreg]; discriminate Hreg].
    - split; [lia | intros [dev Hreg]; discriminate Hreg].
    - split; [intros; now destruct Hne | intros [dev Hreg]; discriminate Hreg].
    - split; [intros; now destruct Hne |].
      intros [dev Hreg].
      destruct error; [now destruct Hne | discriminate Hreg | discriminate Hreg].
    - split; [now exists (Some i) | reflexivity]. }
  destruct Hrun as [d' k1 Hd' E1 | d' a k1 k2 Hd' E1 E2
                   | d' a k1 i k2 error k3 Hd' E1 E2 E3 Hne
                   | d' a k1 i k2 k3 error k4 Hd' E1 E2 E3 E4 Hne
                   | d' a k1 i k2 k3 k4 Hd' E1 E2 E3 E4].
  - split.
    { intros c Hin Hf. simpl in Hin.
      repeat (destruct Hin as [Hin | Hin]; try subst c; try discriminate Hf);
        try contradiction.
      split; [lia |]. split; [reflexivity |]. split; [| reflexivity].
      now exists []. }
    split.
    { intros _. split; [reflexivity |]. eexists. split; [right; left; eauto |].
      reflexivity. }
    split; [| auto].
    intros dev err Hin. simpl in Hin.
    repeat (destruct Hin as [Hin | Hin]; try discriminate Hin); contradiction.
  - split.
    { intros c Hin Hf. simpl in Hin.
      repeat (destruct Hin as [Hin | Hin]; try subst c; try discriminate Hf);
        try contradiction.
      split; [lia |]. split; [reflexivity |]. split; [| reflexivity].
      now exists [DevmKzalloc (Some a)]. }
    split.
    { intros _. split; [reflexivity |].
      eexists. split; [right; right; left; eauto |]. reflexivity. }
    split; [| auto].
    intros dev err Hin. simpl in Hin.
    repeat (destruct Hin as [Hin | Hin]; try discriminate Hin); contradiction.
  - assert (Hf3 : failed (SparseKeymapSetup (Some i) tbtn_keymap error) = true).
    { simpl. apply Z.eqb_neq in Hne. now rewrite Hne. }
    split.
    { intros c Hin Hf. simpl in Hin.
      repeat (destruct Hin as [Hin | Hin]; try subst c; try discriminate Hf);
        try contradiction.
      split; [exact Hne |]. split; [reflexivity |]. split; [| reflexivity].
      now exists [DevmKzalloc (Some a); DevmInputAllocateDevice (Some i)]. }
    split.
    { intros _. split; [reflexivity |].
      eexists. split; [do 3 right; left; eauto |]. exact Hf3. }
    split.
    { intros dev err Hin. simpl in Hin.
      repeat (destruct Hin as [Hin | Hin]; try discriminate Hin);
        contradiction. }
    intros [Hsetup _]. right.
    pose proof (Hsetup (Some i) tbtn_keymap k2) as Hle.
    rewrite E3 in Hle. simpl in Hle. lia.
  - assert (Hf4 : failed (InputRegisterDevice (Some i) error) = true).
    { simpl. apply Z.eqb_neq in Hne. now rewrite Hne. }
    assert (Hreg : registrations
                     [Printk KERN_INFO "tbtn: Device add called for %s\n"
                        [ArgStr (adev_hid d')];
                      DevmKzalloc (Some a);
                      DevmInputAllocateDevice (Some i);
                      SparseKeymapSetup (Some i) tbtn_keymap 0;
                      InputRegisterDevice (Some i) error;
                      Printk KERN_ERR
                        "tbtn: Failed to register input device: %d\n"
                        [ArgInt error]] = []).
    { destruct error; [now destruct Hne | reflexivity | reflexivity]. }
    split.
    { intros c Hin Hf. simpl in Hin.
      repeat (destruct Hin as [Hin | Hin]; try subst c; try discriminate Hf);
        try contradiction.
      split; [exact Hne |]. split; [reflexivity |]. split.
      - now exists [DevmKzalloc (Some a); DevmInputAllocateDevice (Some i);
                    SparseKeymapSetup (Some i) tbtn_keymap 0].
      - exact Hreg. }
    split.
    { intros _. split; [exact Hreg |].
      eexists. split; [do 4 right; left; eauto |]. exact Hf4. }
    split.
    { intros dev err Hin. simpl in Hin.
      repeat (destruct Hin as [Hin | Hin]; try discriminate Hin);
        try contradiction.
      injection Hin as <- <-.
      now exists [DevmKzalloc (Some a); DevmInputAllocateDevice (Some i)]. }
    intros [_ Hregister]. right.
    pose proof (Hregister (Some i) k3) as Hle.
    rewrite E4 in Hle. simpl in Hle. lia.
  - split.
    { intros c Hin Hf. simpl in Hin.
      repeat (destruct Hin as [Hin | Hin]; try subst c; try discriminate Hf);
        contradiction. }
    split; [intros Hne; now destruct Hne |].
    split; [| auto].
    intros dev err Hin. simpl in Hin.
    repeat (destruct Hin as [Hin | Hin]; try discriminate Hin);
      try contradiction.
    injection Hin as <- <-.
    now exists [DevmKzalloc (Some a); DevmInputAllocateDevice (Some i)].
Qed.

Lemma bind_failure_registers_nothing_witness :
  (exists r s' new,
     tbtn_add Sim.the_device
       (Sim.machine
          (Sim.probing [Some 2%positive; Some 3%positive] (-22) 0) None)
     = Done r s' /\
     trace s' = new /\
     In (SparseKeymapSetup (Some 3%positive) tbtn_keymap (-22)) new /\
     r = -22 /\
     registrations new = [] /\
     (r = 0 \/ r < 0)) /\
  (exists r s' new,
     tbtn_add Sim.the_device
       (Sim.machine
          (Sim.probing [Some 2%positive; Some 3%positive] 0 (-19)) None)
     = Done r s' /\
     trace s' = new /\
     r = -19 /\
     kernel_work new
       = [DevmKzalloc (Some 2%positive);
          DevmInputAllocateDevice (Some 3%positive);
          SparseKeymapSetup (Some 3%positive) tbtn_keymap 0;
          InputRegisterDevice (Some 3%positive) (-19)] /\
     registrations new = []) /\
  (exists r s' new,
     tbtn_add Sim.the_device
       (Sim.machine (Sim.probing [Some 2%positive; Some 3%positive] 0 0) None)
     = Done r s' /\
     trace s' = new /\
     r = 0 /\
     registrations new = [Some 3%positive]) /\
  (exists r s' new,
     tbtn_add Sim.the_device (Sim.machine (Sim.probing [] 0 0) None)
     = Done r s' /\
     trace s' = new /\
     r = - ENOMEM /\
     kernel_work new = [DevmKzalloc None]).
Proof.
  split; [| split; [| split]].
  - destruct (bind_failure_registers_nothing
                (Sim.machine
                   (Sim.probing [Some 2%positive; Some 3%positive] (-22) 0)
                   None)
                Sim.the_device _ eq_refl)
      as (r & s' & new & Hret & Htr & _ & _ & Hfail & _ & _ & Hconv).
    exists r, s', new. split; [exact Hret |]. split; [exact Htr |].
    assert (Hin : In (SparseKeymapSetup (Some 3%positive) tbtn_keymap (-22))
                    new).
    { vm_compute in Hret. injection Hret as _ <-. simpl in Htr. subst new.
      do 3 right. left. reflexivity. }
    split; [exact Hin |].
    destruct (Hfail _ Hin eq_refl) as (_ & Hr & _ & Hreg).
    split; [exact Hr |]. split; [exact Hreg |].
    apply Hconv. split; intros; simpl; unfold Sim.errno; lia.
  - destruct (bind_failure_registers_nothing
                (Sim.machine
                   (Sim.probing [Some 2%positive; Some 3%positive] 0 (-19))
                   None)
                Sim.the_device _ eq_refl)
      as (r & s' & new & Hret & Htr & Hpath & _).
    exists r, s', new. split; [exact Hret |]. split; [exact Htr |].
    exact Hpath.
  - destruct (bind_failure_registers_nothing
                (Sim.machine
                   (Sim.probing [Some 2%positive; Some 3%positive] 0 0) None)
                Sim.the_device _ eq_refl)
      as (r & s' & new & Hret & Htr & Hpath & _).
    exists r, s', new. split; [exact Hret |]. split; [exact Htr |].
    destruct Hpath as (Hr & _ & Hreg). split; [exact Hr | exact Hreg].
  - destruct (bind_failure_registers_nothing
                (Sim.machine (Sim.probing [] 0 0) None)
                Sim.the_device _ eq_refl)
      as (r & s' & new & Hret & Htr & Hpath & _).
    exists r, s', new. split; [exact Hret |]. split; [exact Htr |].
    exact Hpath.
Defined.

(** * Beyond the claims: memory, lifecycle and call discipline *)

(** ** What the bind leaves in memory *)

Section BindMemory.

Context {K : Type} `{KernelAPI K}.
Implicit Types (s : state K) (device : ptr).

Ltac enter_add :=
  unfold tbtn_add, acpi_device_hid, deref_acpi, deref_tbtn, deref_input,
    store_acpi, store_tbtn, store_input, call_devm_kzalloc,
    call_devm_input_allocate_device, call_sparse_keymap_setup,
    call_input_register_device, bind, ret, pr_err, pr_info, printk;
  simpl.

Ltac recorded :=
  simpl; rewrite <- ?app_assoc; reflexivity.

(** The run of the bind together with the memory it leaves, read off the
    kernel's answers. *)
Lemma add_outcome s a0 d :
  acpi_devices s !! a0 = Some d ->
  exists r s' new,
    tbtn_add (Some a0) s = Done r s' /\
    trace s' = (trace s ++ new)%list /\
    add_run s (Some a0) r new /\
    match devm_kzalloc (kern s) with
    | (None, _) => driver_state s' = driver_state s
    | (Some a, k1) =>
        acpi_devices s'
          = <[a0 := with_driver_data d (Some a)]> (acpi_devices s) /\
        match devm_input_allocate_device k1 with
        | (None, _) =>
            tbtn_devs s'
              = <[a := {| handle := adev_handle d; input_dev := None |}]>
                  (tbtn_devs s) /\
            input_devs s' = input_devs s
        | (Some i, k2) =>
            tbtn_devs s'
              = <[a := {| handle := adev_handle d;
                          input_dev :=
                            if fst (sparse_keymap_setup (Some i) tbtn_keymap k2)
                               =? 0
                            then Some i else None |}]>
                  (tbtn_devs s) /\
            input_devs s' = <[i := tbtn_input_dev]> (input_devs s)
        end
    end.
Proof.
  intros Hd. enter_add. rewrite Hd. simpl.
  destruct (devm_kzalloc (kern s)) as [[a |] k1] eqn:E1; simpl.
  2: { eexists _, _, _. split; [reflexivity |]. split; [recorded |].
       split; [eapply add_no_context; eauto | reflexivity]. }
  rewrite Hd. simpl. rewrite lookup_insert_eq. simpl. rewrite Hd. simpl.
  destruct (devm_input_allocate_device k1) as [[i |] k2] eqn:E2; simpl.
  2: { eexists _, _, _. split; [reflexivity |]. split; [recorded |].
       split; [eapply add_no_input_device; eauto |].
       simpl. rewrite insert_insert_eq. auto. }
  rewrite !lookup_insert_eq. simpl.
  destruct (sparse_keymap_setup (Some i) tbtn_keymap k2)
    as [error k3] eqn:E3; simpl.
  destruct (Z.eqb_spec error 0) as [-> | Hne]; simpl.
  2: { eexists _, _, _. split; [reflexivity |]. split; [recorded |].
       split; [eapply add_setup_failed; eauto |].
       simpl. rewrite !insert_insert_eq. auto. }
  rewrite !lookup_insert_eq. simpl.
  destruct (input_register_device (Some i) k3) as [error k4] eqn:E4; simpl.
  destruct (Z.eqb_spec error 0) as [-> | Hne]; simpl.
  2: { eexists _, _, _. split; [reflexivity |]. split; [recorded |].
       split; [eapply add_register_failed; eauto |].
       simpl. rewrite !insert_insert_eq. auto. }
  rewrite lookup_insert_eq. simpl.
  eexists _, _, _. split; [reflexivity |]. split; [recorded |].
  split; [eapply add_bound; eauto |].
  simpl. rewrite !insert_insert_eq. auto.
Qed.

End BindMemory.

(** ** Call discipline of the handler *)

Section Discipline.

Context {K : Type} `{KernelAPI K}.
Implicit Types (s : state K) (device : ptr).

Lemma emissions_app (l1 l2 : list kcall) :
  emissions (l1 ++ l2) = (emissions l1 ++ emissions l2)%list.
Proof. apply omap_app. Qed.

Lemma evaluations_app (l1 l2 : list kcall) :
  evaluations (l1 ++ l2) = (evaluations l1 ++ evaluations l2)%list.
Proof. apply omap_app. Qed.

(** What one run may contain, whichever path it takes. *)
Lemma handler_run_shape s device event k new :
  handler_run s device event k new ->
  forallb notify_call new = true /\
  (length (evaluations new) <= 1)%nat /\
  (length (emissions new) <= length (evaluations new))%nat /\
  (event <> 0x80 -> evaluations new = []) /\
  (forall h m st v,
     In (AcpiEvaluateInteger h m st v) new ->
     m = "HINF" /\
     exists t, context_of s device = Some t /\ h = handle t) /\
  (forall dev c v ar,
     In (dev, c, v, ar) (emissions new) ->
     dev = input_of s device /\ ar = true /\ (v = 0 \/ v = 1)).
Proof.
  intros Hrun.
  destruct Hrun as [Hu | t Hc Hi Hev | t st data k Hc Hi Hev Hq Hst
                   | t hinf k Hc Hi Hev Hq Hd
                   | t hinf k1 c v ok k2 Hc Hi Hev Hq Hd Hr];
    try destruct ok;
    (split; [reflexivity |]); (split; [simpl; lia |]);
    (split; [simpl; lia |]); (split; [intros; simpl; congruence |]);
    (split;
     [intros h m st' v' Hin; simpl in Hin;
      repeat (destruct Hin as [Hin | Hin]; try discriminate Hin);
      try contradiction; injection Hin as <- <- _ _; eauto |]);
    intros dev c' v' ar Hin; simpl in Hin; try contradiction;
    destruct Hin as [[= <- <- <- <-] | []];
    (split; [symmetry; now apply input_of_context |]);
    (split; [reflexivity |]);
    destruct (decode_type_set _ _ _ Hd) as [_ ->];
    apply decode_Some in Hd; lia.
Qed.

End Discipline.

Section Ordering.

Context {K : Type} `{KernelAPI K}.
Implicit Types (s : state K) (device : ptr).

(** In a run, whatever is handed to the event emitter comes after the one
    successful evaluation, and nothing else is handed over before or
    after. *)
Lemma emission_follows_evaluation s device event k new before c after :
  handler_run s device event k new ->
  new = (before ++ c :: after)%list ->
  emitted c <> None ->
  (exists h v, evaluations before = [(h, "HINF", AE_OK, v)]) /\
  emissions before = [] /\ emissions after = [].
Proof.
  intros Hrun Heq Hem.
  assert (Hin : In c new) by (rewrite Heq; apply in_elt).
  destruct Hrun as [Hu | t Hc Hi Hev | t st data k Hc Hi Hev Hq Hst
                   | t hinf k Hc Hi Hev Hq Hd
                   | t hinf k1 c' v ok k2 Hc Hi Hev Hq Hd Hr];
    try destruct ok; simpl in Hin;
    repeat (destruct Hin as [Hin | Hin];
            [try (subst c; now contradiction Hem) |]);
    try contradiction; subst c.
  all: destruct before as [| b0 before]; [discriminate Heq |];
    destruct before as [| b1 before]; [discriminate Heq |];
    destruct before as [| b2 before]; [discriminate Heq |];
    destruct before as [| b3 before];
    [ injection Heq as <- <- <- <-; simpl; eauto
    | injection Heq as _ _ _ _ Heq;
      destruct before as [| b4 before]; [discriminate Heq |];
      injection Heq as _ Heq; now destruct before ].
Qed.

End Ordering.

(** * Further properties *)

Lemma notify_calls_are_no_bind_steps (l : list kcall) :
  forallb notify_call l = true -> bind_steps l = [].
Proof.
  induction l as [| c l IH]; [reflexivity |].
  simpl. intros [Hc Hl]%andb_true_iff.
  destruct c; try discriminate Hc; simpl; now apply IH.
Qed.

(** X1.  A notification never allocates, never sets up a keymap and never
    registers a device.  It evaluates at most one ACPI method, always
    "HINF" on the handle stored in the device context, and never for an
    event code other than 0x80.  Whatever it hands to the event emitter is
    for the context's input device, with autorelease on and value 0 or 1,
    and comes after a successful evaluation, with nothing else handed over
    before or after. *)
Theorem handler_call_discipline {K : Type} `{KernelAPI K}
    (s : state K) (device : ptr) (event : Z) :
  well_formed s device = true ->
  exists k new,
    handler_returns s device event k new /\
    bind_steps new = [] /\
    (length (evaluations new) <= 1)%nat /\
    (event <> 0x80 -> evaluations new = []) /\
    (forall h m st v,
       In (AcpiEvaluateInteger h m st v) new ->
       m = "HINF" /\ exists t, context_of s device = Some t /\ h = handle t) /\
    (forall dev c v ar,
       In (dev, c, v, ar) (emissions new) ->
       dev = input_of s device /\ ar = true /\ (v = 0 \/ v = 1)) /\
    (forall before c after,
       new = (before ++ c :: after)%list ->
       emitted c <> None ->
       (exists h v, evaluations before = [(h, "HINF", AE_OK, v)]) /\
       emissions before = [] /\ emissions after = []).
Proof.
  intros Hwf.
  destruct (handler_total s device event Hwf) as (k & new & Hret & Hrun).
  exists k, new. split; [exact Hret |].
  destruct (handler_run_shape _ _ _ _ _ Hrun)
    as (Hcalls & Hone & _ & Hother & Heval & Hemit).
  split; [now apply notify_calls_are_no_bind_steps |].
  repeat (split; [assumption |]).
  intros before c after.
  exact (emission_follows_evaluation _ _ _ _ _ before c after Hrun).
Qed.

Lemma handler_call_discipline_witness :
  exists k new,
    handler_returns (Sim.bound [(AE_OK, 0x43)]) Sim.the_device 0x80 k new /\
    bind_steps new = [] /\
    evaluations new = [(Some 7%positive, "HINF", AE_OK, 0x43)] /\
    emissions new = [(Some 3%positive, 67, 1, true)].
Proof.
  destruct (handler_call_discipline
              (Sim.bound [(AE_OK, 0x43)]) Sim.the_device 0x80 eq_refl)
    as (k & new & Hret & Hsteps & _).
  exists k, new. split; [exact Hret |]. split; [exact Hsteps |].
  unfold handler_returns in Hret. vm_compute in Hret.
  injection Hret as _ <-. split; reflexivity.
Defined.

(** X2.  Notifications delivered one after the other to a well-formed
    device all return.  The driver's memory is afterwards what it was, so
    the device is still well formed; only logging, evaluation and report
    calls were made; and there are at most as many firmware evaluations,
    and at most as many emitted events, as there were notifications with
    event code 0x80. *)
Theorem notifications_in_sequence {K : Type} `{KernelAPI K}
    (events : list Z) (s : state K) (device : ptr) :
  well_formed s device = true ->
  exists k new,
    notify_each device events s = Done tt (advanced s k new) /\
    driver_state (advanced s k new) = driver_state s /\
    well_formed (advanced s k new) device = true /\
    forallb notify_call new = true /\
    (length (evaluations new) <= button_events events)%nat /\
    (length (emissions new) <= length (evaluations new))%nat.
Proof.
  revert s. induction events as [| event rest IH]; intros s Hwf.
  - exists (kern s), []. simpl. unfold ret, advanced.
    rewrite app_nil_r. destruct s; simpl in *. repeat split; auto.
  - destruct (handler_total s device event Hwf) as (k1 & new1 & Hret & Hrun).
    destruct (IH (advanced s k1 new1) Hwf) as (k2 & new2 & Hrest & _ & _ & Hc2 & He2 & Hm2).
    destruct (handler_run_shape _ _ _ _ _ Hrun)
      as (Hc1 & He1 & Hm1 & Hother & _ & _).
    exists k2, (new1 ++ new2)%list.
    split.
    { simpl. unfold bind. rewrite Hret, Hrest.
      now rewrite advanced_advanced. }
    split; [reflexivity |]. split; [exact Hwf |].
    split; [rewrite forallb_app, Hc1, Hc2; reflexivity |].
    rewrite evaluations_app, emissions_app, !length_app.
    split; [| lia].
    unfold button_events in *. simpl.
    destruct (Z.eqb_spec event 0x80) as [-> | Hne]; simpl.
    + lia.
    + rewrite (Hother Hne). simpl. lia.
Qed.

Lemma notifications_in_sequence_witness :
  exists k new,
    notify_each Sim.the_device [0x80; 0x81; 0x80]
      (Sim.bound [(AE_OK, 0x39); (AE_OK, 0x44)])
    = Done tt (advanced (Sim.bound [(AE_OK, 0x39); (AE_OK, 0x44)]) k new) /\
    (length (evaluations new) <= 2)%nat /\
    (length (emissions new) <= length (evaluations new))%nat /\
    emissions new = [(Some 3%positive, 57, 1, true)].
Proof.
  destruct (notifications_in_sequence [0x80; 0x81; 0x80]
              (Sim.bound [(AE_OK, 0x39); (AE_OK, 0x44)])
              Sim.the_device eq_refl)
    as (k & new & Hret & _ & _ & _ & Hev & Hem).
  exists k, new. split; [exact Hret |]. split; [exact Hev |].
  split; [exact Hem |].
  vm_compute in Hret. injection Hret as _ <-. reflexivity.
Defined.

Lemma context_after_bind {K : Type} (s' : state K) (a0 a : addr)
    (d : acpi_device) (t : tbtn_dev)
    (m1 : gmap addr acpi_device) (m2 : gmap addr tbtn_dev) :
  acpi_devices s' = <[a0 := with_driver_data d (Some a)]> m1 ->
  tbtn_devs s' = <[a := t]> m2 ->
  context_of s' (Some a0) = Some t.
Proof.
  intros E1 E2. unfold context_of. simpl.
  rewrite E1, lookup_insert_eq. simpl. now rewrite E2, lookup_insert_eq.
Qed.

(** X3.  A bind that returns 0 has asked the kernel, in this order, for the
    context, for the input device, for the keymap setup of that device with
    the driver's keymap, and for its registration; that device is the one
    registered.  Afterwards [driver_data] of the ACPI device points to the
    context, the context holds the ACPI handle of the device and the input
    device, and the input device carries the name "TBTN A1/A2 Buttons", the
    physical path "tbtn/input0" and bus type [BUS_HOST]. *)
Theorem bind_success_installs_context {K : Type} `{KernelAPI K}
    (s : state K) (a0 : addr) (d : acpi_device) :
  acpi_devices s !! a0 = Some d ->
  exists r s' new,
    tbtn_add (Some a0) s = Done r s' /\
    trace s' = (trace s ++ new)%list /\
    (r = 0 ->
     exists a i,
       kernel_work new =
         [DevmKzalloc (Some a); DevmInputAllocateDevice (Some i);
          SparseKeymapSetup (Some i) tbtn_keymap 0;
          InputRegisterDevice (Some i) 0] /\
       registrations new = [Some i] /\
       acpi_devices s' !! a0 = Some (with_driver_data d (Some a)) /\
       tbtn_devs s' !! a
         = Some {| handle := adev_handle d; input_dev := Some i |} /\
       context_of s' (Some a0)
         = Some {| handle := adev_handle d; input_dev := Some i |} /\
       input_devs s' !! i = Some tbtn_input_dev /\
       uninitialized s' (Some a0) = false).
Proof.
  intros Hd.
  destruct (add_outcome s a0 d Hd) as (r & s' & new & Hret & Htr & Hrun & Hmem).
  exists r, s', new. split; [exact Hret |]. split; [exact Htr |].
  intros Hr.
  destruct Hrun as [d' k1 Hd' E1 | d' a k1 k2 Hd' E1 E2
                   | d' a k1 i k2 error k3 Hd' E1 E2 E3 Hne
                   | d' a k1 i k2 k3 error k4 Hd' E1 E2 E3 E4 Hne
                   | d' a k1 i k2 k3 k4 Hd' E1 E2 E3 E4];
    try (unfold ENOMEM in Hr; lia); try congruence.
  rewrite E1, E2, E3 in Hmem. simpl in Hmem.
  destruct Hmem as (Ha & Ht & Hi).
  assert (Hc : context_of s' (Some a0)
               = Some {| handle := adev_handle d; input_dev := Some i |})
    by exact (context_after_bind _ _ _ _ _ _ _ Ha Ht).
  exists a, i. split; [reflexivity |]. split; [reflexivity |].
  split; [rewrite Ha; apply lookup_insert_eq |].
  split; [rewrite Ht; apply lookup_insert_eq |].
  split; [exact Hc |].
  split; [rewrite Hi; apply lookup_insert_eq |].
  now rewrite (context_not_uninitialized _ _ _ Hc).
Qed.

Lemma bind_success_installs_context_witness :
  exists r s' new,
    tbtn_add Sim.the_device
      (Sim.machine (Sim.probing [Some 2%positive; Some 3%positive] 0 0) None)
    = Done r s' /\
    trace s' = new /\
    r = 0 /\
    registrations new = [Some 3%positive] /\
    context_of s' Sim.the_device = Some Sim.bound_context /\
    input_devs s' !! 3%positive = Some tbtn_input_dev.
Proof.
  destruct (bind_success_installs_context
              (Sim.machine
                 (Sim.probing [Some 2%positive; Some 3%positive] 0 0) None)
              1%positive _ eq_refl)
    as (r & s' & new & Hret & Htr & Hbound).
  exists r, s', new. split; [exact Hret |]. split; [exact Htr |].
  assert (Hr : r = 0).
  { vm_compute in Hret. now injection Hret as <- _. }
  split; [exact Hr |].
  destruct (Hbound Hr) as (a & i & Hwork & Hreg & _ & _ & Hc & Hi & _).
  assert (Hai : a = 2%positive /\ i = 3%positive).
  { vm_compute in Hret. injection Hret as _ <-. simpl in Htr. subst new.
    injection Hwork as <- <-. auto. }
  destruct Hai as [-> ->].
  split; [exact Hreg |]. split; [exact Hc | exact Hi].
Defined.

(** X4.  Whatever its outcome, a bind changes nothing in memory but the
    [driver_data] field of its own ACPI device, the context it was given by
    the allocator and the input device it was given: every other ACPI
    device, context and input device, and the handle and hardware id of its
    own device, are as before.  When the context allocation fails, memory
    is untouched altogether. *)
Theorem bind_touches_only_its_own {K : Type} `{KernelAPI K}
    (s : state K) (a0 : addr) (d : acpi_device) :
  acpi_devices s !! a0 = Some d ->
  exists r s' new,
    tbtn_add (Some a0) s = Done r s' /\
    trace s' = (trace s ++ new)%list /\
    (forall a', a' <> a0 -> acpi_devices s' !! a' = acpi_devices s !! a') /\
    (exists d',
       acpi_devices s' !! a0 = Some d' /\
       adev_handle d' = adev_handle d /\ adev_hid d' = adev_hid d) /\
    (forall a',
       ~ In (DevmKzalloc (Some a')) new ->
       tbtn_devs s' !! a' = tbtn_devs s !! a') /\
    (forall i',
       ~ In (DevmInputAllocateDevice (Some i')) new ->
       input_devs s' !! i' = input_devs s !! i') /\
    (In (DevmKzalloc None) new -> driver_state s' = driver_state s).
Proof.
  intros Hd.
  destruct (add_outcome s a0 d Hd) as (r & s' & new & Hret & Htr & Hrun & Hmem).
  exists r, s', new. split; [exact Hret |]. split; [exact Htr |].
  destruct Hrun as [d' k1 Hd' E1 | d' a k1 k2 Hd' E1 E2
                   | d' a k1 i k2 error k3 Hd' E1 E2 E3 Hne
                   | d' a k1 i k2 k3 error k4 Hd' E1 E2 E3 E4 Hne
                   | d' a k1 i k2 k3 k4 Hd' E1 E2 E3 E4];
    rewrite ?E1, ?E2, ?E3 in Hmem; simpl in Hmem.
  { unfold driver_state in Hmem. injection Hmem as Ha Ht Hi.
    rewrite Ha, Ht, Hi.
    split; [reflexivity |]. split; [exists d; auto |].
    split; [reflexivity |]. split; [reflexivity |].
    intros _. unfold driver_state. congruence. }
  all: destruct Hmem as (Ha & Ht & Hi); rewrite Ha, Ht, Hi.
  all: split; [intros a' Hne'; now rewrite lookup_insert_ne |].
  all: split; [rewrite lookup_insert_eq; eauto |].
  all: split;
    [intros a' Hnot; rewrite lookup_insert_ne; [reflexivity |];
     intros ->; apply Hnot; simpl; auto |].
  all: split;
    [intros i' Hnot;
     first [ reflexivity
           | rewrite lookup_insert_ne;
             [reflexivity | intros ->; apply Hnot; simpl; auto] ] |].
  all: intros Hin; simpl in Hin;
    repeat (destruct Hin as [Hin | Hin]; try discriminate Hin);
    contradiction.
Qed.

Lemma bind_touches_only_its_own_witness :
  exists r s' new,
    tbtn_add Sim.the_device
      (Sim.machine
         (Sim.probing [Some 5%positive; Some 3%positive] 0 0)
         (Some Sim.bound_context))
    = Done r s' /\
    trace s' = new /\
    tbtn_devs s' !! 2%positive = Some Sim.bound_context.
Proof.
  destruct (bind_touches_only_its_own
              (Sim.machine
                 (Sim.probing [Some 5%positive; Some 3%positive] 0 0)
                 (Some Sim.bound_context))
              1%positive _ eq_refl)
    as (r & s' & new & Hret & Htr & _ & _ & Hframe & _).
  exists r, s', new. split; [exact Hret |]. split; [exact Htr |].
  assert (Hnot : ~ In (DevmKzalloc (Some 2%positive)) new).
  { vm_compute in Hret. injection Hret as _ <-. simpl in Htr. subst new.
    simpl. intros Hin.
    repeat (destruct Hin as [Hin | Hin]; try discriminate Hin).
    contradiction. }
  exact (eq_trans (Hframe 2%positive Hnot) eq_refl).
Defined.

(** X5.  A bind that fails at the input device allocation or at the keymap
    setup has already pointed [driver_data] at its context, whose input
    device pointer is [NULL].  The guard of the handler catches that state:
    a notification delivered afterwards, whatever its event code and the
    state of the kernel, only logs the uninitialized-device warning. *)
Theorem early_bind_failure_is_guarded {K : Type} `{KernelAPI K}
    (s : state K) (a0 : addr) (d : acpi_device) :
  acpi_devices s !! a0 = Some d ->
  exists r s' new,
    tbtn_add (Some a0) s = Done r s' /\
    trace s' = (trace s ++ new)%list /\
    (In (DevmInputAllocateDevice None) new \/
     (exists dev err, In (SparseKeymapSetup dev tbtn_keymap err) new /\ err <> 0) ->
     r <> 0 /\
     (exists a,
        In (DevmKzalloc (Some a)) new /\
        context_of s' (Some a0)
          = Some {| handle := adev_handle d; input_dev := None |}) /\
     forall k event,
       tbtn_notify_handler (Some a0) event (later s' k)
       = Done tt
           (advanced (later s' k) k
              [Printk KERN_WARNING
                 "tbtn: Received notify for uninitialized device\n" []])).
Proof.
  intros Hd.
  destruct (add_outcome s a0 d Hd) as (r & s' & new & Hret & Htr & Hrun & Hmem).
  exists r, s', new. split; [exact Hret |]. split; [exact Htr |].
  intros Hfail.
  assert (Hguard :
             context_of s' (Some a0)
               = Some {| handle := adev_handle d; input_dev := None |} ->
             forall k event,
               tbtn_notify_handler (Some a0) event (later s' k)
               = Done tt
                   (advanced (later s' k) k
                      [Printk KERN_WARNING
                         "tbtn: Received notify for uninitialized device\n"
                         []])).
  { intros Hc k event. apply (handler_uninitialized (later s' k)).
    change (uninitialized (later s' k) (Some a0))
      with (uninitialized s' (Some a0)).
    now rewrite (context_not_uninitialized _ _ _ Hc). }
  destruct Hrun as [d' k1 Hd' E1 | d' a k1 k2 Hd' E1 E2
                   | d' a k1 i k2 error k3 Hd' E1 E2 E3 Hne
                   | d' a k1 i k2 k3 error k4 Hd' E1 E2 E3 E4 Hne
                   | d' a k1 i k2 k3 k4 Hd' E1 E2 E3 E4];
    rewrite ?E1, ?E2, ?E3 in Hmem; simpl in Hmem.
  - exfalso. destruct Hfail as [Hin | (dev & err & Hin & _)]; simpl in Hin;
      repeat (destruct Hin as [Hin | Hin]; try discriminate Hin);
      contradiction.
  - destruct Hmem as (Ha & Ht & _).
    pose proof (context_after_bind _ _ _ _ _ _ _ Ha Ht) as Hc.
    split; [unfold ENOMEM; lia |].
    split; [exists a; split; [simpl; auto | exact Hc] |].
    exact (Hguard Hc).
  - destruct Hmem as (Ha & Ht & _).
    apply Z.eqb_neq in Hne. rewrite Hne in Ht.
    pose proof (context_after_bind _ _ _ _ _ _ _ Ha Ht) as Hc.
    split; [now apply Z.eqb_neq |].
    split; [exists a; split; [simpl; auto | exact Hc] |].
    exact (Hguard Hc).
  - exfalso. destruct Hfail as [Hin | (dev & err & Hin & Hne')]; simpl in Hin;
      repeat (destruct Hin as [Hin | Hin]; try discriminate Hin);
      try contradiction.
    injection Hin as _ <-. now apply Hne'.
  - exfalso. destruct Hfail as [Hin | (dev & err & Hin & Hne')]; simpl in Hin;
      repeat (destruct Hin as [Hin | Hin]; try discriminate Hin);
      try contradiction.
    injection Hin as _ <-. now apply Hne'.
Qed.

Lemma early_bind_failure_is_guarded_witness :
  exists r s' new,
    tbtn_add Sim.the_device
      (Sim.machine
         (Sim.probing [Some 2%positive; Some 3%positive] (-22) 0) None)
    = Done r s' /\
    trace s' = new /\
    emissions
      match
        tbtn_notify_handler Sim.the_device 0x80
          (later s' (Sim.booted [(AE_OK, 0x39)] tbtn_keymap))
      with
      | Done _ s2 => trace s2
      | Fault => []
      end = [] /\
    r <> 0.
Proof.
  destruct (early_bind_failure_is_guarded
              (Sim.machine
                 (Sim.probing [Some 2%positive; Some 3%positive] (-22) 0) None)
              1%positive _ eq_refl)
    as (r & s' & new & Hret & Htr & Hguard).
  exists r, s', new. split; [exact Hret |]. split; [exact Htr |].
  assert (Hfail : In (DevmInputAllocateDevice None) new \/
                  exists dev err,
                    In (SparseKeymapSetup dev tbtn_keymap err) new /\ err <> 0).
  { right. exists (Some 3%positive), (-22).
    vm_compute in Hret. injection Hret as _ <-. simpl in Htr. subst new.
    split; [do 3 right; left; reflexivity | lia]. }
  destruct (Hguard Hfail) as (Hr & _ & Hnotify).
  split; [| exact Hr].
  unfold Sim.the_device. rewrite Hnotify. reflexivity.
Defined.

Section Initialized.

Context {K : Type} `{KernelAPI K}.
Implicit Types (s : state K) (device : ptr).

Lemma context_well_formed s device t :
  context_of s device = Some t -> well_formed s device = true.
Proof.
  intros (d & a & Hd & Ha & Ht)%context_of_Some.
  unfold well_formed. rewrite Hd, Ha. apply bool_decide_eq_true. eauto.
Qed.

(** A notification on a device with its context and input device. *)
Lemma initialized_notification s device t event :
  context_of s device = Some t ->
  is_null (input_dev t) = false ->
  exists k new,
    handler_returns s device event k new /\
    (forall h m st v,
       In (AcpiEvaluateInteger h m st v) new -> h = handle t /\ m = "HINF") /\
    (forall dev c v ar,
       In (dev, c, v, ar) (emissions new) -> dev = input_dev t) /\
    (event = 0x80 -> length (evaluations new) = 1%nat).
Proof.
  intros Hc Hi.
  destruct (handler_total s device event (context_well_formed _ _ _ Hc))
    as (k & new & Hret & Hrun).
  exists k, new. split; [exact Hret |].
  destruct (handler_run_shape _ _ _ _ _ Hrun)
    as (_ & _ & _ & _ & Heval & Hemit).
  split.
  { intros h m st v Hin. destruct (Heval _ _ _ _ Hin) as (-> & t' & Hc' & ->).
    split; [congruence | reflexivity]. }
  split.
  { intros dev c v ar Hin. destruct (Hemit _ _ _ _ Hin) as (-> & _).
    now apply input_of_context. }
  intros ->.
  pose proof (context_not_uninitialized _ _ _ Hc) as Hu. rewrite Hi in Hu.
  destruct Hrun; try destruct ok; try congruence; reflexivity.
Qed.

End Initialized.

(** X6.  A bind whose registration fails returns the kernel's code with
    nothing registered.  The input device was stored in the context before
    the registration was attempted and is not taken back: in the state the
    bind returns, [driver_data] points to the context, the context still
    holds the filled-in input device, and the condition tested by the guard
    of the handler is false. *)
Theorem failed_registration_keeps_input_device {K : Type} `{KernelAPI K}
    (s : state K) (a0 : addr) (d : acpi_device) :
  acpi_devices s !! a0 = Some d ->
  exists r s' new,
    tbtn_add (Some a0) s = Done r s' /\
    trace s' = (trace s ++ new)%list /\
    forall dev err,
      In (InputRegisterDevice dev err) new -> err <> 0 ->
      r = err /\
      registrations new = [] /\
      (exists i, dev = Some i /\ input_devs s' !! i = Some tbtn_input_dev) /\
      context_of s' (Some a0)
        = Some {| handle := adev_handle d; input_dev := dev |} /\
      uninitialized s' (Some a0) = false.
Proof.
  intros Hd.
  destruct (add_outcome s a0 d Hd) as (r & s' & new & Hret & Htr & Hrun & Hmem).
  exists r, s', new. split; [exact Hret |]. split; [exact Htr |].
  intros dev err Hin Herr.
  destruct Hrun as [d' k1 Hd' E1 | d' a k1 k2 Hd' E1 E2
                   | d' a k1 i k2 error k3 Hd' E1 E2 E3 Hne
                   | d' a k1 i k2 k3 error k4 Hd' E1 E2 E3 E4 Hne
                   | d' a k1 i k2 k3 k4 Hd' E1 E2 E3 E4];
    simpl in Hin;
    repeat (destruct Hin as [Hin | Hin]; try discriminate Hin);
    try contradiction; injection Hin as <- <-; [| now destruct Herr].
  rewrite E1, E2, E3 in Hmem. simpl in Hmem. destruct Hmem as (Ha & Ht & Hi).
  pose proof (context_after_bind _ _ _ _ _ _ _ Ha Ht) as Hc.
  split; [reflexivity |].
  split; [destruct error; [now destruct Herr | reflexivity | reflexivity] |].
  split; [exists i; split; [reflexivity |]; rewrite Hi; apply lookup_insert_eq |].
  split; [exact Hc |].
  now rewrite (context_not_uninitialized _ _ _ Hc).
Qed.

Lemma failed_registration_keeps_input_device_witness :
  exists r s' new,
    tbtn_add Sim.the_device
      (Sim.machine
         (Sim.probing [Some 2%positive; Some 3%positive] 0 (-19)) None)
    = Done r s' /\
    trace s' = new /\
    r = -19 /\
    registrations new = [] /\
    uninitialized s' Sim.the_device = false.
Proof.
  destruct (failed_registration_keeps_input_device
              (Sim.machine
                 (Sim.probing [Some 2%positive; Some 3%positive] 0 (-19)) None)
              1%positive _ eq_refl)
    as (r & s' & new & Hret & Htr & Hfail).
  exists r, s', new. split; [exact Hret |]. split; [exact Htr |].
  assert (Hin : In (InputRegisterDevice (Some 3%positive) (-19)) new).
  { vm_compute in Hret. injection Hret as _ <-. simpl in Htr. subst new.
    do 4 right. left. reflexivity. }
  assert (Hne : -19 <> 0) by lia.
  destruct (Hfail _ _ Hin Hne) as (Hr & Hreg & _ & _ & Hu).
  split; [exact Hr |]. split; [exact Hreg | exact Hu].
Defined.

(** X7.  After a bind that returned 0, every notification passes the guard
    of the handler: it returns, any method it evaluates is "HINF" on the
    ACPI handle of the bound device, an event code 0x80 does evaluate it,
    once, and whatever is emitted is addressed to the input device that the
    bind registered. *)
Theorem bound_device_notifies {K : Type} `{KernelAPI K}
    (s : state K) (a0 : addr) (d : acpi_device) :
  acpi_devices s !! a0 = Some d ->
  exists r s' new,
    tbtn_add (Some a0) s = Done r s' /\
    trace s' = (trace s ++ new)%list /\
    (r = 0 ->
     forall k event,
       exists k' new',
         handler_returns (later s' k) (Some a0) event k' new' /\
         (forall h m st v,
            In (AcpiEvaluateInteger h m st v) new' ->
            h = adev_handle d /\ m = "HINF") /\
         (event = 0x80 -> length (evaluations new') = 1%nat) /\
         (forall dev c v ar,
            In (dev, c, v, ar) (emissions new') ->
            registrations new = [dev])).
Proof.
  intros Hd.
  destruct (add_outcome s a0 d Hd) as (r & s' & new & Hret & Htr & Hrun & Hmem).
  exists r, s', new. split; [exact Hret |]. split; [exact Htr |].
  intros Hr k event.
  destruct Hrun as [d' k1 Hd' E1 | d' a k1 k2 Hd' E1 E2
                   | d' a k1 i k2 error k3 Hd' E1 E2 E3 Hne
                   | d' a k1 i k2 k3 error k4 Hd' E1 E2 E3 E4 Hne
                   | d' a k1 i k2 k3 k4 Hd' E1 E2 E3 E4];
    try (unfold ENOMEM in Hr; lia); try congruence.
  rewrite E1, E2, E3 in Hmem. simpl in Hmem. destruct Hmem as (Ha & Ht & _).
  pose proof (context_after_bind _ _ _ _ _ _ _ Ha Ht) as Hc.
  destruct (initialized_notification (later s' k) (Some a0) _ event Hc eq_refl)
    as (k' & new' & Hret' & Heval & Hemit & Hone).
  exists k', new'. split; [exact Hret' |]. split; [exact Heval |].
  split; [exact Hone |].
  intros dev c v ar Hin. rewrite (Hemit _ _ _ _ Hin). reflexivity.
Qed.

Lemma bound_device_notifies_witness :
  exists r s' new,
    tbtn_add Sim.the_device
      (Sim.machine (Sim.probing [Some 2%positive; Some 3%positive] 0 0) None)
    = Done r s' /\
    trace s' = new /\
    r = 0 /\
    exists k' new',
      handler_returns (later s' (Sim.booted [(AE_OK, 0x42)] tbtn_keymap))
        Sim.the_device 0x80 k' new' /\
      length (evaluations new') = 1%nat.
Proof.
  destruct (bound_device_notifies
              (Sim.machine
                 (Sim.probing [Some 2%positive; Some 3%positive] 0 0) None)
              1%positive _ eq_refl)
    as (r & s' & new & Hret & Htr & Hbound).
  exists r, s', new. split; [exact Hret |]. split; [exact Htr |].
  assert (Hr : r = 0).
  { vm_compute in Hret. now injection Hret as <- _. }
  split; [exact Hr |].
  destruct (Hbound Hr (Sim.booted [(AE_OK, 0x42)] tbtn_keymap) 0x80)
    as (k' & new' & Hret' & _ & Hone & _).
  exists k', new'. split; [exact Hret' | exact (Hone eq_refl)].
Defined.

(** X8.  Whatever its outcome, a bind never evaluates an ACPI method and
    never hands anything to the event emitter.  Its allocation, keymap
    setup and registration calls are an initial part of one fixed sequence:
    the context allocation first, then the input device allocation, then
    the keymap setup of that input device with the driver's keymap, then
    the registration of that same device. *)
Theorem bind_call_order {K : Type} `{KernelAPI K}
    (s : state K) (a0 : addr) (d : acpi_device) :
  acpi_devices s !! a0 = Some d ->
  exists r s' new,
    tbtn_add (Some a0) s = Done r s' /\
    trace s' = (trace s ++ new)%list /\
    evaluations new = [] /\
    emissions new = [] /\
    (exists res, head (bind_steps new) = Some (DevmKzalloc res)) /\
    exists a i e1 e2,
      bind_steps new `prefix_of`
        [DevmKzalloc a; DevmInputAllocateDevice i;
         SparseKeymapSetup i tbtn_keymap e1; InputRegisterDevice i e2].
Proof.
  intros Hd.
  destruct (add_total s (Some a0) d Hd) as (r & s' & new & Hret & Htr & Hrun).
  exists r, s', new. split; [exact Hret |]. split; [exact Htr |].
  destruct Hrun as [d' k1 Hd' E1 | d' a k1 k2 Hd' E1 E2
                   | d' a k1 i k2 error k3 Hd' E1 E2 E3 Hne
                   | d' a k1 i k2 k3 error k4 Hd' E1 E2 E3 E4 Hne
                   | d' a k1 i k2 k3 k4 Hd' E1 E2 E3 E4];
    (split; [reflexivity |]); (split; [reflexivity |]);
    (split; [simpl; eauto |]); simpl.
  - exists None, None, 0, 0. now eexists.
  - exists (Some a), None, 0, 0. now eexists.
  - exists (Some a), (Some i), error, 0. now eexists.
  - exists (Some a), (Some i), 0, error. now exists [].
  - exists (Some a), (Some i), 0, 0. now exists [].
Qed.

Lemma bind_call_order_witness :
  exists r s' new,
    tbtn_add Sim.the_device
      (Sim.machine (Sim.probing [Some 2%positive] 0 0) None)
    = Done r s' /\
    trace s' = new /\
    bind_steps new = [DevmKzalloc (Some 2%positive);
                      DevmInputAllocateDevice None] /\
    evaluations new = [] /\ emissions new = [].
Proof.
  destruct (bind_call_order
              (Sim.machine (Sim.probing [Some 2%positive] 0 0) None)
              1%positive _ eq_refl)
    as (r & s' & new & Hret & Htr & Hev & Hem & _).
  exists r, s', new. split; [exact Hret |]. split; [exact Htr |].
  split; [| split; [exact Hev | exact Hem]].
  vm_compute in Hret. injection Hret as _ <-. simpl in Htr. subst new.
  reflexivity.
Defined.

(** X9.  For every raw status value the decoder recognises, the reported
    direction is bit 0 of the value, the reported code is the low 7 bits
    with bit 0 set, and that code is itself a raw press value: decoding it
    again gives the same code, pressed. *)
Theorem decoded_direction_is_bit0 (hinf_result c v : Z) :
  decode hinf_result = Some (c, v) ->
  v = Z.land hinf_result 1 /\
  c = Z.lor (Z.land hinf_result 0x7F) 1 /\
  decode c = Some (c, 1).
Proof.
  intros D. apply decode_Some in D.
  assert (Hbit : Z.land hinf_result 1 = Z.land (Z.land hinf_result 0x7F) 1)
    by now rewrite <- Z.land_assoc.
  rewrite Hbit.
  destruct D as [(->&->&->) | [(->&->&->) | [(->&->&->) | (->&->&->)]]];
    repeat split.
Qed.

Lemma decoded_direction_is_bit0_witness :
  decode 0xC2 = Some (67, 0) /\
  0 = Z.land 0xC2 1 /\ 67 = Z.lor (Z.land 0xC2 0x7F) 1 /\
  decode 67 = Some (67, 1).
Proof.
  split; [reflexivity |].
  exact (decoded_direction_is_bit0 0xC2 67 0 eq_refl).
Defined.

(** X10.  The keymap has an entry for a raw code exactly when the code is
    57 or 67.  So for a recognised raw status value, the key value itself
    has an entry exactly when the event is a press; for a release it has
    none, and the code the decoder reports in its place does. *)
Theorem release_codes_have_no_entry :
  (forall c, is_Some (keymap_find tbtn_keymap c) <-> c = 57 \/ c = 67) /\
  (forall hinf_result c v,
     decode hinf_result = Some (c, v) ->
     (is_Some (keymap_find tbtn_keymap (key_value_of hinf_result)) <-> v = 1) /\
     (key_value_of hinf_result = c <-> v = 1) /\
     is_Some (keymap_find tbtn_keymap c)).
Proof.
  assert (Hfind : forall c,
             is_Some (keymap_find tbtn_keymap c) <-> c = 57 \/ c = 67).
  { intros c.
    change (keymap_find tbtn_keymap c)
      with (if 57 =? c
            then Some {| type := KE_KEY; code := 57; keycode := KEY_PROG1 |}
            else if 67 =? c
                 then Some {| type := KE_KEY; code := 67;
                              keycode := KEY_PROG2 |}
                 else None).
    destruct (Z.eqb_spec 57 c) as [<- | H57]; [split; eauto |].
    destruct (Z.eqb_spec 67 c) as [<- | H67]; [split; eauto |].
    split; [intros [? E]; discriminate E | lia]. }
  split; [exact Hfind |].
  intros h c v D. rewrite !Hfind, key_value_low7.
  apply decode_Some in D. lia.
Qed.

Lemma release_codes_have_no_entry_witness :
  keymap_find tbtn_keymap (key_value_of 0x38) = None /\
  decode 0x38 = Some (57, 0) /\
  is_Some (keymap_find tbtn_keymap 57).
Proof.
  destruct release_codes_have_no_entry as [_ Hraw].
  destruct (Hraw 0x38 57 0 eq_refl) as (Hno & _ & Hyes).
  split; [| split; [reflexivity | exact Hyes]].
  destruct (keymap_find tbtn_keymap (key_value_of 0x38)) as [ke |] eqn:E;
    [| reflexivity].
  assert (H01 : 0 = 1) by (apply (proj1 Hno); eauto).
  discriminate H01.
Defined.

Lemma remove_run {K : Type} (s : state K) (device : ptr) (d : acpi_device) :
  device ≫= (acpi_devices s !!.) = Some d ->
  tbtn_remove device s
  = Done tt
      (advanced s (kern s)
         [Printk KERN_INFO "tbtn: Device remove called for %s\n"
            [ArgStr (adev_hid d)]]).
Proof.
  intros Hd.
  unfold tbtn_remove, acpi_device_hid, deref_acpi, bind, ret, pr_info, printk.
  now rewrite Hd.
Qed.

(** X11.  Unbinding only logs the hardware id of the device: the driver
    itself unregisters nothing and clears nothing.  After any bind followed
    by the unbind, the kernel is where the bind left it and memory is what
    the bind left; in particular after a bind that returned 0,
    [driver_data] still points to the context with its input device, so the
    guard of the handler would not catch a later notification. *)
Theorem remove_keeps_binding {K : Type} `{KernelAPI K}
    (s : state K) (a0 : addr) (d : acpi_device) :
  acpi_devices s !! a0 = Some d ->
  exists r s1 new,
    tbtn_add (Some a0) s = Done r s1 /\
    trace s1 = (trace s ++ new)%list /\
    exists s2,
      tbtn_remove (Some a0) s1 = Done tt s2 /\
      kern s2 = kern s1 /\
      driver_state s2 = driver_state s1 /\
      trace s2
        = (trace s1 ++
           [Printk KERN_INFO "tbtn: Device remove called for %s\n"
              [ArgStr (adev_hid d)]])%list /\
      (r = 0 ->
       uninitialized s2 (Some a0) = false /\
       exists i,
         registrations new = [Some i] /\
         context_of s2 (Some a0)
           = Some {| handle := adev_handle d; input_dev := Some i |}).
Proof.
  intros Hd.
  destruct (add_outcome s a0 d Hd) as (r & s1 & new & Hret & Htr & Hrun & Hmem).
  exists r, s1, new. split; [exact Hret |]. split; [exact Htr |].
  assert (Hd1 : exists d1,
             acpi_devices s1 !! a0 = Some d1 /\ adev_hid d1 = adev_hid d).
  { destruct (devm_kzalloc (kern s)) as [[a |] k1].
    - destruct Hmem as (Ha & _). rewrite Ha, lookup_insert_eq. eauto.
    - unfold driver_state in Hmem. injection Hmem as -> _ _. eauto. }
  destruct Hd1 as (d1 & Hd1 & Hhid).
  eexists. split; [apply (remove_run s1 (Some a0) d1 Hd1) |].
  split; [reflexivity |]. split; [reflexivity |].
  split; [simpl; now rewrite Hhid |].
  intros Hr.
  destruct Hrun as [d' k1 Hd' E1 | d' a k1 k2 Hd' E1 E2
                   | d' a k1 i k2 error k3 Hd' E1 E2 E3 Hne
                   | d' a k1 i k2 k3 error k4 Hd' E1 E2 E3 E4 Hne
                   | d' a k1 i k2 k3 k4 Hd' E1 E2 E3 E4];
    try (unfold ENOMEM in Hr; lia); try congruence.
  rewrite E1, E2, E3 in Hmem. simpl in Hmem. destruct Hmem as (Ha & Ht & _).
  pose proof (context_after_bind _ _ _ _ _ _ _ Ha Ht) as Hc.
  split.
  - change (uninitialized s1 (Some a0) = false).
    now rewrite (context_not_uninitialized _ _ _ Hc).
  - exists i. split; [reflexivity | exact Hc].
Qed.

Lemma remove_keeps_binding_witness :
  exists r s1 new,
    tbtn_add Sim.the_device
      (Sim.machine (Sim.probing [Some 2%positive; Some 3%positive] 0 0) None)
    = Done r s1 /\
    trace s1 = new /\
    exists s2,
      tbtn_remove Sim.the_device s1 = Done tt s2 /\
      driver_state s2 = driver_state s1 /\
      registrations (trace s2) = [Some 3%positive] /\
      uninitialized s2 Sim.the_device = false.
Proof.
  destruct (remove_keeps_binding
              (Sim.machine
                 (Sim.probing [Some 2%positive; Some 3%positive] 0 0) None)
              1%positive _ eq_refl)
    as (r & s1 & new & Hret & Htr & s2 & Hrem & _ & Hmem & Htr2 & Hbound).
  exists r, s1, new. split; [exact Hret |]. split; [exact Htr |].
  exists s2. split; [exact Hrem |]. split; [exact Hmem |].
  assert (Hr : r = 0).
  { vm_compute in Hret. now injection Hret as <- _. }
  destruct (Hbound Hr) as (Hu & _).
  split; [| exact Hu].
  rewrite Htr2. vm_compute in Hret. injection Hret as _ <-. reflexivity.
Defined.


(** X13.  Every notification ends with a log line and logs at most one
    warning.  A raw value obtained from the firmware is logged in full
    before it is decoded.  A warning is logged exactly when the guard caught
    an uninitialized device, or the raw value was not recognised, or the
    event emitter reported failure. *)
Theorem handler_logging {K : Type} `{KernelAPI K}
    (s : state K) (device : ptr) (event : Z) :
  well_formed s device = true ->
  exists k new,
    handler_returns s device event k new /\
    (exists before lvl fmt args,
       new = (before ++ [Printk lvl fmt args])%list) /\
    (length (warnings new) <= 1)%nat /\
    (forall h m v,
       In (AcpiEvaluateInteger h m AE_OK v) new ->
       exists before after,
         new = (before ++
                AcpiEvaluateInteger h m AE_OK v ::
                Printk KERN_INFO "tbtn: HINF returned 0x%llx\n" [ArgInt v] ::
                after)%list) /\
    (warnings new <> [] <->
     uninitialized s device = true \/
     (exists h m v,
        In (AcpiEvaluateInteger h m AE_OK v) new /\
        ~ recognised (Z.land v 0x7F)) \/
     (exists dev c v ar, In (SparseKeymapReportEvent dev c v ar false) new)).
Proof.
  intros Hwf.
  destruct (handler_total s device event Hwf) as (k & new & Hret & Hrun).
  exists k, new. split; [exact Hret |].
  destruct Hrun as [Hu | t Hc Hi Hev | t st data k Hc Hi Hev Hq Hst
                   | t hinf k Hc Hi Hev Hq Hd
                   | t hinf k1 c v ok k2 Hc Hi Hev Hq Hd Hr];
    try destruct ok;
    try (pose proof (context_not_uninitialized _ _ _ Hc) as Hu;
         rewrite Hi in Hu).
  - split; [eexists [], _, _, _; reflexivity |]. split; [simpl; lia |].
    split; [intros h m v [Hin | []]; discriminate Hin |].
    split; [auto | discriminate].
  - split; [eexists [], _, _, _; reflexivity |]. split; [simpl; lia |].
    split; [intros h m v [Hin | []]; discriminate Hin |].
    split; [intros Hw; now destruct Hw |].
    intros [Hu' | [(h & m & v & Hin & _) | (dev & c & v & ar & Hin)]];
      [congruence | |]; simpl in Hin;
      repeat (destruct Hin as [Hin | Hin]; try discriminate Hin);
      contradiction.
  - split; [eexists [_; _], _, _, _; reflexivity |]. split; [simpl; lia |].
    split.
    { intros h m v Hin. simpl in Hin.
      repeat (destruct Hin as [Hin | Hin]; try discriminate Hin);
        try contradiction. injection Hin as _ _ Hok _. congruence. }
    split; [intros Hw; now destruct Hw |].
    intros [Hu' | [(h & m & v & Hin & _) | (dev & c & v & ar & Hin)]];
      [congruence | |]; simpl in Hin;
      repeat (destruct Hin as [Hin | Hin]; try discriminate Hin);
      try contradiction. injection Hin as _ _ Hok _. congruence.
  - split; [eexists [_; _; _], _, _, _; reflexivity |].
    split; [simpl; lia |].
    split.
    { intros h m v Hin. simpl in Hin.
      repeat (destruct Hin as [Hin | Hin]; try discriminate Hin);
        try contradiction. injection Hin as <- <- <-.
      eexists [_], [_]; reflexivity. }
    split; [| discriminate].
    intros _. right. left. exists (handle t), "HINF", hinf.
    split; [simpl; auto |].
    apply decode_None in Hd. unfold recognised. lia.
  - split; [eexists [_; _; _; _], _, _, _; reflexivity |].
    split; [simpl; lia |].
    split.
    { intros h m v' Hin. simpl in Hin.
      repeat (destruct Hin as [Hin | Hin]; try discriminate Hin);
        try contradiction. injection Hin as <- <- <-.
      eexists [_], [_; _]; reflexivity. }
    split; [intros Hw; now destruct Hw |].
    intros [Hu' | [(h & m & v' & Hin & Hnot) | (dev & c' & v' & ar & Hin)]];
      [congruence | |]; simpl in Hin;
      repeat (destruct Hin as [Hin | Hin]; try discriminate Hin);
      try contradiction.
    injection Hin as _ _ <-. exfalso. apply Hnot.
    apply decode_Some in Hd. unfold recognised. lia.
  - split; [eexists [_; _; _; _], _, _, _; reflexivity |].
    split; [simpl; lia |].
    split.
    { intros h m v' Hin. simpl in Hin.
      repeat (destruct Hin as [Hin | Hin]; try discriminate Hin);
        try contradiction. injection Hin as <- <- <-.
      eexists [_], [_; _]; reflexivity. }
    split; [| discriminate].
    intros _. right. right. eexists _, _, _, _. simpl. eauto.
Qed.

Lemma handler_logging_witness :
  exists k new,
    handler_returns (Sim.bound [(AE_OK, 0x7F)]) Sim.the_device 0x80 k new /\
    length (warnings new) = 1%nat.
Proof.
  destruct (handler_logging (Sim.bound [(AE_OK, 0x7F)]) Sim.the_device 0x80
              eq_refl)
    as (k & new & Hret & _ & Hle & _ & Hiff).
  exists k, new. split; [exact Hret |].
  assert (Hne : warnings new <> []).
  { apply Hiff. right. left. exists (Some 7%positive), "HINF", 0x7F.
    split.
    - unfold handler_returns in Hret. vm_compute in Hret.
      injection Hret as _ <-. right; left; reflexivity.
    - unfold recognised. vm_compute. lia. }
  destruct (warnings new) as [| w [| w' ws]];
    [now destruct Hne | reflexivity | simpl in Hle; lia].
Defined.

(** X14.  The two fields the handler extracts from the raw value are its
    low byte and nothing more: [key_value] lies between 0 and 127,
    [key_event_type] is 0 or 0x80, the two add up to the low 8 bits of the
    value, and the upper 56 bits are discarded. *)
Theorem extracted_fields_are_the_low_byte (hinf_result : Z) :
  0 <= key_value_of hinf_result <= 127 /\
  (key_event_type_of hinf_result = 0 \/ key_event_type_of hinf_result = 0x80) /\
  key_value_of hinf_result + key_event_type_of hinf_result
    = Z.land hinf_result 0xFF /\
  forall upper,
    key_value_of (hinf_result + 256 * upper) = key_value_of hinf_result /\
    key_event_type_of (hinf_result + 256 * upper)
      = key_event_type_of hinf_result.
Proof.
  assert (H7 : forall h, Z.land h 0x7F = h mod 128).
  { intros h. change 0x7F with (Z.ones 7). now rewrite Z.land_ones by lia. }
  assert (H8 : forall h, Z.land h 0xFF = h mod 256).
  { intros h. change 0xFF with (Z.ones 8). now rewrite Z.land_ones by lia. }
  assert (Hsplit : forall h, Z.land h 0xFF = Z.land h 0x7F + Z.land h 0x80).
  { intros h.
    change 0xFF with (Z.lor 0x7F 0x80). rewrite Z.land_lor_distr_r.
    rewrite <- Z.lxor_lor, <- Z.add_nocarry_lxor; try reflexivity.
    all: rewrite (Z.land_comm h 0x7F), <- Z.land_assoc,
           (Z.land_assoc h h), Z.land_diag, Z.land_comm, <- Z.land_assoc;
         apply Z.land_0_r. }
  assert (Hbit : forall h, Z.land h 0x80 = h mod 256 - h mod 128).
  { intros h. pose proof (Hsplit h) as E. rewrite H7, H8 in E. lia. }
  assert (Ht : forall h, key_event_type_of h = h mod 256 - h mod 128).
  { intros h. unfold key_event_type_of, to_u32. rewrite Hbit.
    apply Z.mod_small.
    pose proof (Z.rem_mul_r h 128 2) as E. change (128 * 2) with 256 in E.
    pose proof (Z.mod_pos_bound (h / 128) 2). lia. }
  split; [rewrite key_value_low7; pose proof (low7_range hinf_result); lia |].
  split.
  { rewrite Ht.
    pose proof (Z.rem_mul_r hinf_result 128 2) as E.
    change (128 * 2) with 256 in E.
    pose proof (Z.mod_pos_bound (hinf_result / 128) 2). lia. }
  split; [rewrite key_value_low7, Ht, H7, H8; lia |].
  intros upper. rewrite !key_value_low7, !Ht, !H7.
  replace (hinf_result + 256 * upper) with (hinf_result + upper * 256) by lia.
  rewrite Z_mod_plus_full.
  replace (hinf_result + upper * 256)
    with (hinf_result + (upper * 2) * 128) by lia.
  now rewrite Z_mod_plus_full.
Qed.
